(** * Feast: in-memory registry, on-demand transformation engine and the
      MySQL registry store, embedded from the Python sources.

    - [Py]: the fragment of Python the sources rely on: exceptions,
      insertion-ordered dictionaries, [str.split], a heap of objects
      with reference semantics and [copy.copy].
    - [Memory]: [feast/infra/registry/memory.py].
    - [OnDemand]: [feast/on_demand_feature_view.py].
    - [MySQL]: [feast/infra/registry/contrib/mysql/mysql_registry_store.py]. *)

From Stdlib Require Import ZArith Ascii String.
From stdpp Require Import base strings list gmap.

Open Scope string_scope.

(* ===================================================================== *)
(** * Python fragment *)
(* ===================================================================== *)

Module Py.

(** Exception classes raised or caught by the modelled code.
    [OperationalError] is a subclass of [DatabaseError] in pymysql. *)
Inductive exn : Type :=
  | RegistryError
  | FeatureViewNotFoundException
  | KeyError
  | TypeError
  | AttributeError
  | ValueError
  | AssertionError
  | Exception
  | DatabaseError
  | OperationalError.

#[global] Instance exn_eq_dec : EqDecision exn.
Proof. solve_decision. Defined.

(** Outcome of a call: a value, or a raised exception. *)
Inductive result (A : Type) : Type :=
  | Ok (a : A)
  | Raise (e : exn).
Arguments Ok {A} a.
Arguments Raise {A} e.

Definition rbind {A B} (r : result A) (k : A -> result B) : result B :=
  match r with
  | Ok a => k a
  | Raise e => Raise e
  end.

Notation "'let+' x ':=' r 'in' k" := (rbind r (fun x => k))
  (at level 10, x name, r at level 100, k at level 200).

(** ** Dictionaries

    A Python [dict] keeps its keys unique and iterates in insertion
    order; assigning to an existing key keeps the key's position. *)
Definition dict (V : Type) : Type := list (string * V).

Fixpoint dict_get {V} (k : string) (d : dict V) : option V :=
  match d with
  | [] => None
  | (k', v) :: d' => if String.eqb k k' then Some v else dict_get k d'
  end.

Definition dict_mem {V} (k : string) (d : dict V) : bool :=
  match dict_get k d with Some _ => true | None => false end.

Fixpoint dict_set {V} (k : string) (v : V) (d : dict V) : dict V :=
  match d with
  | [] => [(k, v)]
  | (k', v') :: d' =>
      if String.eqb k k' then (k', v) :: d' else (k', v') :: dict_set k v d'
  end.

Fixpoint dict_del {V} (k : string) (d : dict V) : dict V :=
  match d with
  | [] => []
  | (k', v') :: d' =>
      if String.eqb k k' then d' else (k', v') :: dict_del k d'
  end.

Definition dict_keys {V} (d : dict V) : list string := map fst d.
Definition dict_values {V} (d : dict V) : list V := map snd d.

(** [d[k]]: raises [KeyError] on a missing key. *)
Definition dict_item {V} (k : string) (d : dict V) : result V :=
  match dict_get k d with
  | Some v => Ok v
  | None => Raise KeyError
  end.

(** [{**d1, **d2}] and [d1.update(d2)]. *)
Definition dict_update {V} (d1 d2 : dict V) : dict V :=
  fold_left (fun d kv => dict_set (fst kv) (snd kv) d) d2 d1.

(** ** Strings *)

(** [s.split(sep)] for a one-character separator: one more piece than
    there are separators, empty pieces included. *)
Fixpoint split (sep : ascii) (s : string) : list string :=
  match s with
  | EmptyString => [EmptyString]
  | String c s' =>
      if Ascii.eqb c sep then EmptyString :: split sep s'
      else match split sep s' with
           | [] => [String c EmptyString]
           | piece :: rest => String c piece :: rest
           end
  end.

(** [sep in s]. *)
Fixpoint has_char (sep : ascii) (s : string) : bool :=
  match s with
  | EmptyString => false
  | String c s' => Ascii.eqb c sep || has_char sep s'
  end.


(** ** Objects and references

    Python variables, attributes and dictionary values hold references.
    An object lives at an address of the heap; a list attribute holds
    the address of a list object, so two objects created by a shallow
    copy share the list. *)
Definition addr : Type := nat.

(** [datetime] values, as microseconds on the UTC time line. *)
Definition datetime : Type := Z.

(** The classes of the catalog objects. *)
Inductive cls : Type :=
  | Entity
  | DataSource
  | FeatureService
  | StreamFeatureView
  | FeatureView
  | OnDemandFeatureView
  | RequestFeatureView
  | SavedDataset.

#[global] Instance cls_eq_dec : EqDecision cls.
Proof. solve_decision. Defined.

(** Modelled from the spec: the classes of the catalog objects other
    than [OnDemandFeatureView] are defined outside the analysed
    sources.  An object has the attributes of the data model that the
    registry reads or writes, and the dictionary [tags].
    [materialization_intervals] is a reference to a list object and
    [tags] a reference to a dictionary object ([None]: the object has
    no such attribute). *)
Record pyobj : Type := PyObj {
  ob_class : cls;
  name : string;
  created_timestamp : option datetime;
  last_updated_timestamp : option datetime;
  materialization_intervals : option addr;
  tags : option addr
}.

Definition set_created_timestamp (t : datetime) (o : pyobj) : pyobj :=
  PyObj (ob_class o) (name o) (Some t) (last_updated_timestamp o)
        (materialization_intervals o) (tags o).

Definition set_last_updated_timestamp (t : datetime) (o : pyobj) : pyobj :=
  PyObj (ob_class o) (name o) (created_timestamp o) (Some t)
        (materialization_intervals o) (tags o).

Record heap : Type := Heap {
  objs : gmap addr pyobj;
  lists : gmap addr (list (datetime * datetime));
  dicts : gmap addr (dict string)
}.

Definition empty_heap : heap := Heap ∅ ∅ ∅.

End Py.

Import Py.

(* ===================================================================== *)
(** * memory.py: keys of the registry dictionaries *)
(* ===================================================================== *)

Module Keys.

Definition colon : ascii := ":"%char.

(** [project_key]: [f"{project}:{key}"]. *)
Definition project_key (project key : string) : string :=
  project ++ String colon key.

(** [invert_projected_key]: split on [":"], exactly two pieces or
    [RegistryError]. *)
Definition invert_projected_key (projected_key : string)
  : result (string * string) :=
  match split colon projected_key with
  | [s0; s1] => Ok (s0, s1)
  | _ => Raise RegistryError
  end.

End Keys.

Import Keys.

(* ===================================================================== *)
(** * memory.py: [MemoryRegistry] *)
(* ===================================================================== *)

Module Memory.

(** The dictionary attributes of a [MemoryRegistry]; every dictionary
    maps a projected key to a reference to the stored object. *)
Record MemoryRegistry : Type := Registry {
  entities : dict addr;
  data_sources : dict addr;
  feature_services : dict addr;
  stream_feature_views : dict addr;
  feature_views : dict addr;
  on_demand_feature_views : dict addr;
  request_feature_views : dict addr;
  saved_datasets : dict addr
}.

(** [MemoryRegistry.__init__]: every dictionary starts empty. *)
Definition init : MemoryRegistry := Registry [] [] [] [] [] [] [] [].

(** Names of the dictionary attributes, to pass a dictionary by
    reference ([self._fv_registry(..)], [self.fv_registries]). *)
Inductive attr : Type :=
  | a_entities
  | a_data_sources
  | a_feature_services
  | a_stream_feature_views
  | a_feature_views
  | a_on_demand_feature_views
  | a_request_feature_views
  | a_saved_datasets.

#[global] Instance attr_eq_dec : EqDecision attr.
Proof. solve_decision. Defined.

Definition sel (a : attr) (r : MemoryRegistry) : dict addr :=
  match a with
  | a_entities => entities r
  | a_data_sources => data_sources r
  | a_feature_services => feature_services r
  | a_stream_feature_views => stream_feature_views r
  | a_feature_views => feature_views r
  | a_on_demand_feature_views => on_demand_feature_views r
  | a_request_feature_views => request_feature_views r
  | a_saved_datasets => saved_datasets r
  end.

Definition upd (a : attr) (d : dict addr) (r : MemoryRegistry)
  : MemoryRegistry :=
  match a with
  | a_entities =>
      Registry d (data_sources r) (feature_services r)
        (stream_feature_views r) (feature_views r)
        (on_demand_feature_views r) (request_feature_views r)
        (saved_datasets r)
  | a_data_sources =>
      Registry (entities r) d (feature_services r)
        (stream_feature_views r) (feature_views r)
        (on_demand_feature_views r) (request_feature_views r)
        (saved_datasets r)
  | a_feature_services =>
      Registry (entities r) (data_sources r) d
        (stream_feature_views r) (feature_views r)
        (on_demand_feature_views r) (request_feature_views r)
        (saved_datasets r)
  | a_stream_feature_views =>
      Registry (entities r) (data_sources r) (feature_services r)
        d (feature_views r)
        (on_demand_feature_views r) (request_feature_views r)
        (saved_datasets r)
  | a_feature_views =>
      Registry (entities r) (data_sources r) (feature_services r)
        (stream_feature_views r) d
        (on_demand_feature_views r) (request_feature_views r)
        (saved_datasets r)
  | a_on_demand_feature_views =>
      Registry (entities r) (data_sources r) (feature_services r)
        (stream_feature_views r) (feature_views r)
        d (request_feature_views r)
        (saved_datasets r)
  | a_request_feature_views =>
      Registry (entities r) (data_sources r) (feature_services r)
        (stream_feature_views r) (feature_views r)
        (on_demand_feature_views r) d
        (saved_datasets r)
  | a_saved_datasets =>
      Registry (entities r) (data_sources r) (feature_services r)
        (stream_feature_views r) (feature_views r)
        (on_demand_feature_views r) (request_feature_views r)
        d
  end.

(** The fixed list [self.fv_registries]. *)
Definition fv_registries : list attr :=
  [a_stream_feature_views; a_feature_views;
   a_on_demand_feature_views; a_request_feature_views].

(** ** The interpreter state and its monad

    A method runs on the heap and on the registry object; a raised
    exception keeps the writes made before it. *)
Record state : Type := State {
  st_heap : heap;
  st_self : MemoryRegistry
}.

Definition M (A : Type) : Type := state -> result A * state.

Definition ret {A} (a : A) : M A := fun s => (Ok a, s).

Definition raise {A} (e : exn) : M A := fun s => (Raise e, s).

Definition bind {A B} (m : M A) (k : A -> M B) : M B :=
  fun s =>
    match m s with
    | (Ok a, s') => k a s'
    | (Raise e, s') => (Raise e, s')
    end.

Notation "'let*' x ':=' m 'in' k" := (bind m (fun x => k))
  (at level 10, x name, m at level 100, k at level 200).

Definition lift {A} (r : result A) : M A := fun s => (r, s).

(** Dereference an object.  References held by a running program are
    never dangling; the model answers [AttributeError] if one is. *)
Definition get_obj (a : addr) : M pyobj :=
  fun s =>
    match objs (st_heap s) !! a with
    | Some o => (Ok o, s)
    | None => (Raise AttributeError, s)
    end.

Definition set_obj (a : addr) (o : pyobj) : M unit :=
  fun s =>
    (Ok tt,
     State (Heap (<[a := o]> (objs (st_heap s))) (lists (st_heap s))
                 (dicts (st_heap s)))
           (st_self s)).

(** Create an object at an unused address. *)
Definition alloc_obj (o : pyobj) : M addr :=
  fun s =>
    let a := fresh (dom (objs (st_heap s))) in
    (Ok a,
     State (Heap (<[a := o]> (objs (st_heap s))) (lists (st_heap s))
                 (dicts (st_heap s)))
           (st_self s)).

Definition get_list (a : addr) : M (list (datetime * datetime)) :=
  fun s =>
    match lists (st_heap s) !! a with
    | Some l => (Ok l, s)
    | None => (Raise AttributeError, s)
    end.

Definition set_list (a : addr) (l : list (datetime * datetime)) : M unit :=
  fun s =>
    (Ok tt,
     State (Heap (objs (st_heap s)) (<[a := l]> (lists (st_heap s)))
                 (dicts (st_heap s)))
           (st_self s)).

Definition alloc_list (l : list (datetime * datetime)) : M addr :=
  fun s =>
    let a := fresh (dom (lists (st_heap s))) in
    (Ok a,
     State (Heap (objs (st_heap s)) (<[a := l]> (lists (st_heap s)))
                 (dicts (st_heap s)))
           (st_self s)).

Definition get_dict (a : addr) : M (dict string) :=
  fun s =>
    match dicts (st_heap s) !! a with
    | Some d => (Ok d, s)
    | None => (Raise AttributeError, s)
    end.

Definition set_dict (a : addr) (d : dict string) : M unit :=
  fun s =>
    (Ok tt,
     State (Heap (objs (st_heap s)) (lists (st_heap s))
                 (<[a := d]> (dicts (st_heap s))))
           (st_self s)).

Definition alloc_dict (d : dict string) : M addr :=
  fun s =>
    let a := fresh (dom (dicts (st_heap s))) in
    (Ok a,
     State (Heap (objs (st_heap s)) (lists (st_heap s))
                 (<[a := d]> (dicts (st_heap s))))
           (st_self s)).

(** [self.<attr>] and [self.<attr>[key] = v], [del self.<attr>[key]]. *)
Definition self_dict (a : attr) : M (dict addr) :=
  fun s => (Ok (sel a (st_self s)), s).

Definition self_dict_set (a : attr) (key : string) (v : addr) : M unit :=
  fun s =>
    (Ok tt,
     State (st_heap s) (upd a (dict_set key v (sel a (st_self s))) (st_self s))).

Definition self_dict_del (a : attr) (key : string) : M unit :=
  fun s =>
    (Ok tt,
     State (st_heap s) (upd a (dict_del key (sel a (st_self s))) (st_self s))).

(** [l.append(x)] on the list object at [a]. *)
Definition list_append (a : addr) (x : datetime * datetime) : M unit :=
  let* l := get_list a in
  set_list a (l ++ [x]).

(** [d[k] = v] on the dictionary object at [a]. *)
Definition dict_setitem (a : addr) (k v : string) : M unit :=
  let* d := get_dict a in
  set_dict a (dict_set k v d).

(** ** [copy.copy]

    [copy.copy(x)] calls [type(x).__copy__] when the class has one and
    makes the default copy otherwise: a new object whose attributes
    hold the same references as the original's. *)

(** Modelled from the spec: [Entity], [DataSource], [FeatureService]
    and [SavedDataset] are plain records of the data model, defined
    outside the analysed sources, without a [__copy__] of their own;
    [copy.copy] makes the default copy of them. *)
Definition copies_by_default (c : cls) : bool :=
  match c with
  | Entity | DataSource | FeatureService | SavedDataset => true
  | StreamFeatureView | FeatureView | OnDemandFeatureView
  | RequestFeatureView => false
  end.

(** Modelled from the spec: [FeatureView], [StreamFeatureView] and
    [RequestFeatureView] have a [__copy__] of their own, defined
    outside the analysed sources.  The method is a parameter of the
    model.  Given the object and the heap it raises, or gives the
    attributes of the copy; it may create lists and dictionaries, and
    its second result holds the lists and the dictionaries of the heap
    afterwards.  As the spec has a read return a copy, the copy is a
    new object: [copy_copy] puts it at an unused address. *)
Class ViewCopy : Type :=
  view_copy :
    pyobj -> heap ->
    result pyobj *
    (gmap addr (list (datetime * datetime)) * gmap addr (dict string)).

(** [OnDemandFeatureView.__copy__] (on_demand_feature_view.py) calls
    the constructor without its required keyword-only argument [mode]:
    the call raises [TypeError]. *)
Definition copy_copy {VC : ViewCopy} (a : addr) : M addr :=
  let* o := get_obj a in
  match ob_class o with
  | OnDemandFeatureView => raise TypeError
  | StreamFeatureView | FeatureView | RequestFeatureView =>
      fun s =>
        let r := view_copy o (st_heap s) in
        let s' := State (Heap (objs (st_heap s)) (fst (snd r)) (snd (snd r)))
                        (st_self s) in
        match fst r with
        | Ok o' => alloc_obj o' s'
        | Raise e => (Raise e, s')
        end
  | Entity | DataSource | FeatureService | SavedDataset => alloc_obj o
  end.

(** ** [list_registry_dict]

    The comprehension visits the items in insertion order; the filter
    [invert_projected_key(k)[0] == project] is evaluated before the
    copy of the value. *)
Fixpoint list_registry_dict {VC : ViewCopy} (project : string)
    (registry : dict addr) : M (list addr) :=
  match registry with
  | [] => ret []
  | (k, v) :: rest =>
      let* p := lift (invert_projected_key k) in
      if String.eqb (fst p) project then
        let* c := copy_copy v in
        let* cs := list_registry_dict project rest in
        ret (c :: cs)
      else list_registry_dict project rest
  end.

(** [_fv_registry]: the [isinstance] chain. *)
Definition _fv_registry (feature_view : pyobj) : M attr :=
  match ob_class feature_view with
  | StreamFeatureView => ret a_stream_feature_views
  | FeatureView => ret a_feature_views
  | OnDemandFeatureView => ret a_on_demand_feature_views
  | RequestFeatureView => ret a_request_feature_views
  | _ => raise RegistryError
  end.

(** ** Entities *)

(** [apply_entity].  [is_valid] stands for [Entity.is_valid], defined
    outside the analysed sources; [now] is the reading of
    [datetime.utcnow()]. *)
Definition apply_entity (is_valid : pyobj -> result unit)
    (entity : addr) (project : string) (now : datetime) : M unit :=
  let* e := get_obj entity in
  let* _ := lift (is_valid e) in
  let* _ := match created_timestamp e with
            | None => set_obj entity (set_created_timestamp now e)
            | Some _ => ret tt
            end in
  let* e := get_obj entity in
  let* _ := set_obj entity (set_last_updated_timestamp now e) in
  let* e := get_obj entity in
  let key := project_key project (name e) in
  let* d := self_dict a_entities in
  if dict_mem key d then raise RegistryError
  else self_dict_set a_entities key entity.

(** The body shared by [delete_entity], [delete_data_source] and
    [delete_feature_service]. *)
Definition delete_in (a : attr) (name project : string) : M unit :=
  let key := project_key project name in
  let* d := self_dict a in
  if negb (dict_mem key d) then raise RegistryError
  else self_dict_del a key.

(** The body shared by the [get_*] methods:
    [key not in d] raises, otherwise [copy.copy(d[key])]. *)
Definition get_in {VC : ViewCopy} (a : attr) (name project : string) : M addr :=
  let key := project_key project name in
  let* d := self_dict a in
  match dict_get key d with
  | None => raise RegistryError
  | Some v => copy_copy v
  end.

(** The body shared by the [list_*] methods. *)
Definition list_in {VC : ViewCopy} (a : attr) (project : string)
  : M (list addr) :=
  let* d := self_dict a in
  list_registry_dict project d.

(** The body shared by [apply_data_source], [apply_feature_service]
    and [apply_saved_dataset]: no timestamp is touched. *)
Definition apply_in (a : attr) (obj : addr) (project : string) : M unit :=
  let* o := get_obj obj in
  let key := project_key project (name o) in
  let* d := self_dict a in
  if dict_mem key d then raise RegistryError
  else self_dict_set a key obj.

Definition delete_entity := delete_in a_entities.
Definition get_entity {VC : ViewCopy} := get_in a_entities.
Definition list_entities {VC : ViewCopy} := list_in a_entities.

(** ** Data sources *)
Definition apply_data_source := apply_in a_data_sources.
Definition delete_data_source := delete_in a_data_sources.
Definition get_data_source {VC : ViewCopy} := get_in a_data_sources.

(** ** Feature services *)
Definition apply_feature_service := apply_in a_feature_services.
Definition delete_feature_service := delete_in a_feature_services.
Definition get_feature_service {VC : ViewCopy} := get_in a_feature_services.
Definition list_feature_services {VC : ViewCopy} := list_in a_feature_services.

(** ** Feature views *)

(** [apply_feature_view]: the dictionary is chosen by the class of the
    view; no timestamp is touched. *)
Definition apply_feature_view (feature_view : addr) (project : string)
  : M unit :=
  let* fv := get_obj feature_view in
  let* registry := _fv_registry fv in
  let key := project_key project (name fv) in
  let* d := self_dict registry in
  if dict_mem key d then raise RegistryError
  else self_dict_set registry key feature_view.

(** [delete_feature_view]: the first dictionary of [fv_registries]
    that holds the key loses it. *)
Fixpoint delete_feature_view_loop (key : string) (registries : list attr)
  : M unit :=
  match registries with
  | [] => raise RegistryError
  | registry :: rest =>
      let* d := self_dict registry in
      if dict_mem key d then self_dict_del registry key
      else delete_feature_view_loop key rest
  end.

Definition delete_feature_view (name project : string) : M unit :=
  delete_feature_view_loop (project_key project name) fv_registries.

Definition get_stream_feature_view {VC : ViewCopy} := get_in a_stream_feature_views.
Definition list_stream_feature_views {VC : ViewCopy} :=
  list_in a_stream_feature_views.
Definition get_on_demand_feature_view {VC : ViewCopy} := get_in a_on_demand_feature_views.
Definition list_on_demand_feature_views {VC : ViewCopy} :=
  list_in a_on_demand_feature_views.
Definition get_feature_view {VC : ViewCopy} := get_in a_feature_views.
Definition list_feature_views {VC : ViewCopy} := list_in a_feature_views.
Definition get_request_feature_view {VC : ViewCopy} := get_in a_request_feature_views.
Definition list_request_feature_views {VC : ViewCopy} :=
  list_in a_request_feature_views.

(** [apply_materialization]: the loop over
    [[self.feature_views, self.stream_feature_views]]; [now] is the
    reading of [datetime.utcnow()]. *)
Fixpoint apply_materialization_loop (key : string)
    (start_date end_date now : datetime) (registries : list attr) : M unit :=
  match registries with
  | [] => raise FeatureViewNotFoundException
  | registry :: rest =>
      let* d := self_dict registry in
      match dict_get key d with
      | Some fv =>
          let* o := get_obj fv in
          match materialization_intervals o with
          | None => raise AttributeError
          | Some log =>
              let* _ := list_append log (start_date, end_date) in
              let* o := get_obj fv in
              set_obj fv (set_last_updated_timestamp now o)
          end
      | None => apply_materialization_loop key start_date end_date now rest
      end
  end.

Definition apply_materialization (feature_view : addr) (project : string)
    (start_date end_date now : datetime) : M unit :=
  let* fv := get_obj feature_view in
  apply_materialization_loop (project_key project (name fv))
    start_date end_date now [a_feature_views; a_stream_feature_views].

(** ** Saved datasets *)
Definition apply_saved_dataset := apply_in a_saved_datasets.

(** [get_saved_dataset], [list_saved_datasets]: the bodies are [pass],
    the calls return [None]. *)
Definition get_saved_dataset (name project : string) : M (option addr) :=
  ret None.


(** [delete_saved_dataset]: the body is its docstring. *)
Definition delete_saved_dataset (name project : string) : M unit :=
  ret tt.

(** ** Reading the state *)

(** The object a dictionary holds under the key of [(project, name)]. *)
Definition stored (a : attr) (project name : string) (s : state)
  : option pyobj :=
  match dict_get (project_key project name) (sel a (st_self s)) with
  | Some v => objs (st_heap s) !! v
  | None => None
  end.

(** The materialization log of an object. *)
Definition log_of (o : pyobj) (s : state)
  : option (list (datetime * datetime)) :=
  match materialization_intervals o with
  | Some l => lists (st_heap s) !! l
  | None => None
  end.



(** The update time of the object at an address. *)
Definition update_time (v : addr) (s : state) : option datetime :=
  match objs (st_heap s) !! v with
  | Some o => last_updated_timestamp o
  | None => None
  end.

(** The view [apply_materialization] works on: the first of
    [self.feature_views], [self.stream_feature_views] that holds the
    key. *)
Definition locate (key : string) (r : MemoryRegistry) : option addr :=
  match dict_get key (feature_views r) with
  | Some v => Some v
  | None => dict_get key (stream_feature_views r)
  end.

(** The materialization log of the object stored for
    [(project, name)]. *)
Definition stored_log (a : attr) (project name : string) (s : state)
  : option (list (datetime * datetime)) :=
  match stored a project name s with
  | Some o => log_of o s
  | None => None
  end.

(** What a list operation yields over a dictionary of objects that
    are copied by default, read off a heap without running it: the
    objects stored under the keys of [project], in dictionary order. *)
Fixpoint listed (project : string) (registry : dict addr)
    (h : gmap addr pyobj) : result (list pyobj) :=
  match registry with
  | [] => Ok []
  | (k, v) :: rest =>
      let+ p := invert_projected_key k in
      if String.eqb (fst p) project then
        match h !! v with
        | None => Raise AttributeError
        | Some o => let+ os := listed project rest h in Ok (o :: os)
        end
      else listed project rest h
  end.

End Memory.


(* ===================================================================== *)
(** * on_demand_feature_view.py *)
(* ===================================================================== *)

Module OnDemand.

(** Feature values. *)
Inductive pyval : Type :=
  | PyNone
  | PyInt (n : Z).

#[global] Instance pyval_eq_dec : EqDecision pyval.
Proof. solve_decision. Defined.

(** One record per row: a [dict] from field name to value. *)
Definition row : Type := dict pyval.

(** A [pandas.DataFrame]: its columns in order, each with the values
    of the rows.  Column labels may repeat (after a rename). *)
Definition dataframe : Type := list (string * list pyval).

(** A [Dict[str, List[Any]]] of columns. *)
Definition feature_columns : Type := dict (list pyval).

Definition columns (df : dataframe) : list string := map fst df.

(** [n in l] for a list of labels. *)
Definition mem (n : string) (l : list string) : bool :=
  existsb (String.eqb n) l.

(** [df.to_dict()]: a repeated label keeps its last column. *)
Definition to_dict (df : dataframe) : feature_columns := dict_update [] df.

(** [pd.DataFrame.from_dict(d)]: one column per key, in key order.
    The values are kept as they are: the column types that pandas
    infers when it builds the frame (a column of integers with a
    missing value becomes a column of floats) are not part of the
    model. *)
Definition from_dict (d : feature_columns) : dataframe := d.

(** [df.drop(columns=cs)]: a new frame; the receiver is not changed. *)
Definition drop (cs : list string) (df : dataframe) : dataframe :=
  filter (fun c => negb (mem (fst c) cs)) df.

(** [df.columns = new_columns]. *)
Definition set_columns (new_columns : list string) (df : dataframe)
  : dataframe :=
  combine new_columns (map snd df).

(** [zip] over the unpacked columns: the rows of a list of columns, as many as the
    shortest column has; none when there is no column. *)
Fixpoint zip_star (cols : list (list pyval)) : list (list pyval) :=
  match cols with
  | [] => []
  | c :: cs =>
      match cs with
      | [] => map (fun v => [v]) c
      | _ :: _ => zip_with cons c (zip_star cs)
      end
  end.

(** Modelled from the spec: [Field], [FeatureViewProjection] and
    [RequestSource] are defined outside the analysed sources.  A field
    is a named feature; a projection is a named subset of another
    view's features, with the value of its [name_to_use()]; a request
    source is a named list of fields. *)
Module Field.
Record t : Type := mk { name : string }.
End Field.

Module FeatureViewProjection.
Record t : Type := mk {
  name : string;
  features : list Field.t;
  name_to_use : string
}.
End FeatureViewProjection.

Module RequestSource.
Record t : Type := mk {
  name : string;
  schema : list Field.t
}.
End RequestSource.

(** A Python function: the bytecode of its code object, and what a
    call returns on a row and on a frame. *)
Module FunctionType.
Record t : Type := mk {
  co_code : string;
  call_row : row -> result row;
  call_df : dataframe -> result dataframe
}.
End FunctionType.

Record OnDemandFeatureView : Type := mk {
  name : string;
  features : list Field.t;
  source_feature_view_projections : dict FeatureViewProjection.t;
  source_request_sources : dict RequestSource.t;
  udf : FunctionType.t;
  udf_string : string;
  mode : string;
  projection : FeatureViewProjection.t
}.

(** [_empty_odfv_udf_fn]: the identity. *)
Definition _empty_odfv_udf_fn : FunctionType.t :=
  FunctionType.mk EmptyString (fun x => Ok x) (fun x => Ok x).

(** [_get_projected_feature_name]. *)
Definition _get_projected_feature_name (self : OnDemandFeatureView)
    (feature : string) : string :=
  FeatureViewProjection.name_to_use (projection self) ++ "__" ++ feature.

(** [f"{source_fv_projection.name}__{feature.name}"]. *)
Definition full_feature_ref (source_fv_projection : FeatureViewProjection.t)
    (feature : Field.t) : string :=
  FeatureViewProjection.name source_fv_projection ++ "__" ++ Field.name feature.

(** ** [_get_transformed_features_df] *)

(** Body of the inner loop: make both names of an upstream feature
    present, and note the name that was added. *)
Definition df_duplicate (p : FeatureViewProjection.t)
    (acc : feature_columns * list string) (feature : Field.t)
  : feature_columns * list string :=
  let dict_with_features := fst acc in
  let columns_to_cleanup := snd acc in
  match dict_get (full_feature_ref p feature) dict_with_features with
  | Some col =>
      (dict_set (Field.name feature) col dict_with_features,
       (columns_to_cleanup ++ [Field.name feature])%list)
  | None =>
      match dict_get (Field.name feature) dict_with_features with
      | Some col =>
          (dict_set (full_feature_ref p feature) col dict_with_features,
           (columns_to_cleanup ++ [full_feature_ref p feature])%list)
      | None => acc
      end
  end.

Definition df_duplicate_all (self : OnDemandFeatureView)
    (dict_with_features : feature_columns) : feature_columns * list string :=
  fold_left
    (fun acc p => fold_left (df_duplicate p) (FeatureViewProjection.features p) acc)
    (dict_values (source_feature_view_projections self))
    (dict_with_features, []).

(** Body of the loop that fills [rename_columns]. *)
Definition rename_step (self : OnDemandFeatureView) (full_feature_names : bool)
    (out_columns : list string) (rename_columns : dict string)
    (feature : Field.t) : dict string :=
  let short_name := Field.name feature in
  let long_name := _get_projected_feature_name self (Field.name feature) in
  if mem short_name out_columns && full_feature_names then
    dict_set short_name long_name rename_columns
  else if negb full_feature_names then
    dict_set long_name short_name rename_columns
  else rename_columns.

Definition _get_transformed_features_df (self : OnDemandFeatureView)
    (df_with_features : dataframe) (full_feature_names : bool)
  : result dataframe :=
  let dict_with_features := to_dict df_with_features in
  let dup := df_duplicate_all self dict_with_features in
  let columns_to_cleanup := snd dup in
  let df_with_features := from_dict (fst dup) in
  let+ df_with_transformed_features :=
    FunctionType.call_df (udf self) df_with_features in
  let rename_columns :=
    fold_left
      (rename_step self full_feature_names
         (columns df_with_transformed_features))
      (features self) [] in
  (* the frame returned by [drop] is not bound to anything *)
  let _ :=
    drop (filter (fun c => mem c (columns df_with_features)) columns_to_cleanup)
         df_with_features in
  let new_columns :=
    map (fun n => match dict_get n rename_columns with
                  | Some m => m
                  | None => n
                  end)
        (columns df_with_transformed_features) in
  Ok (set_columns new_columns df_with_transformed_features).

(** ** [_get_transformed_features_dict] *)

(** Body of the inner loop that fills [name_map]. *)
Definition name_map_step (feature_dict : feature_columns)
    (p : FeatureViewProjection.t) (acc : result (dict string))
    (feature : Field.t) : result (dict string) :=
  let+ name_map := acc in
  if dict_mem (full_feature_ref p feature) feature_dict then
    Ok (dict_set (full_feature_ref p feature) (Field.name feature) name_map)
  else if dict_mem (Field.name feature) feature_dict then
    let+ v := dict_item (full_feature_ref p feature) name_map in
    Ok (dict_set (Field.name feature) v name_map)
  else Ok name_map.

Definition build_name_map (self : OnDemandFeatureView)
    (feature_dict : feature_columns) : result (dict string) :=
  fold_left
    (fun acc p =>
       fold_left (name_map_step feature_dict p)
                 (FeatureViewProjection.features p) acc)
    (dict_values (source_feature_view_projections self))
    (Ok []).

(** One element of [rows]: the two comprehensions, merged. *)
Definition make_row (keys : list string) (name_map : dict string)
    (values : list pyval) : result row :=
  let first :=
    fold_left (fun d kv => dict_set (fst kv) (snd kv) d)
              (combine keys values) [] in
  let+ second :=
    fold_left
      (fun acc kv =>
         let+ d := acc in
         let+ k' := dict_item (fst kv) name_map in
         Ok (dict_set k' (snd kv) d))
      (combine keys values) (Ok []) in
  Ok (dict_update first second).

Fixpoint make_rows (keys : list string) (name_map : dict string)
    (zipped : list (list pyval)) : result (list row) :=
  match zipped with
  | [] => Ok []
  | values :: rest =>
      let+ r := make_row keys name_map values in
      let+ rs := make_rows keys name_map rest in
      Ok (r :: rs)
  end.

(** The loop over [self.features] that prepares [output_dict] and
    [correct_feature_name_to_alias]. *)
Definition output_step (self : OnDemandFeatureView) (full_feature_names : bool)
    (nrows : nat) (acc : feature_columns * dict string) (feature : Field.t)
  : feature_columns * dict string :=
  let long_name := _get_projected_feature_name self (Field.name feature) in
  let correct_name :=
    if full_feature_names then long_name else Field.name feature in
  let alias := if full_feature_names then Field.name feature else long_name in
  (dict_set correct_name (repeat PyNone nrows) (fst acc),
   dict_set correct_name alias (snd acc)).

(** [row_output.get(feature, row_output[alias[feature]])]: the default
    is an argument of the call and is evaluated before it. *)
Definition pick (row_output : row) (correct_feature_name_to_alias : dict string)
    (feature : string) : result pyval :=
  let+ alias := dict_item feature correct_feature_name_to_alias in
  let+ default := dict_item alias row_output in
  Ok (match dict_get feature row_output with
      | Some v => v
      | None => default
      end).

(** Body of the loop over [enumerate(rows)]. *)
Definition fill_row (self : OnDemandFeatureView)
    (correct_feature_name_to_alias : dict string)
    (acc : result feature_columns) (ir : nat * row) : result feature_columns :=
  let+ output_dict := acc in
  let+ row_output := FunctionType.call_row (udf self) (snd ir) in
  fold_left
    (fun acc feature =>
       let+ output_dict := acc in
       let+ v := pick row_output correct_feature_name_to_alias feature in
       let+ col := dict_item feature output_dict in
       Ok (dict_set feature (<[fst ir := v]> col) output_dict))
    (dict_keys output_dict) (Ok output_dict).

Definition _get_transformed_features_dict (self : OnDemandFeatureView)
    (feature_dict : feature_columns) (full_feature_names : bool)
  : result feature_columns :=
  let+ name_map := build_name_map self feature_dict in
  let+ rows :=
    make_rows (dict_keys feature_dict) name_map
              (zip_star (dict_values feature_dict)) in
  let prepared :=
    fold_left (output_step self full_feature_names (length rows))
              (features self) ([], []) in
  fold_left (fill_row self (snd prepared))
            (combine (seq 0 (length rows)) rows)
            (Ok (fst prepared)).

(** Invariant of the loop that fills [name_map]: the loop has raised
    [KeyError], or every key of [name_map] is a key of [feature_dict]. *)
Definition name_map_inv (feature_dict : feature_columns)
    (acc : result (dict string)) : Prop :=
  acc = Raise KeyError \/
  exists name_map, acc = Ok name_map /\
    forall k, dict_mem k name_map = true -> dict_mem k feature_dict = true.

(** ** [get_transformed_features] *)

(** What a caller may pass for [features]; [TypingAlias] is a type
    expression such as [Dict[str, List[Any]]] or the class
    [pd.DataFrame]. *)
Inductive pyarg : Type :=
  | ADict (d : feature_columns)
  | AFrame (df : dataframe)
  | TypingAlias.

(** [typing.cast(typ, val)] returns [val]. *)
Definition cast (typ val : pyarg) : pyarg := val.

Inductive transformed : Type :=
  | RDict (d : feature_columns)
  | RFrame (df : dataframe).

(** The two private methods as a caller of [get_transformed_features]
    reaches them: an argument that is neither a dictionary nor a frame
    ends in [TypeError]. *)
Definition call_transformed_features_dict (self : OnDemandFeatureView)
    (feature_dict : pyarg) (full_feature_names : bool) : result transformed :=
  match feature_dict with
  | ADict d =>
      let+ r := _get_transformed_features_dict self d full_feature_names in
      Ok (RDict r)
  | _ => Raise TypeError
  end.

Definition call_transformed_features_df (self : OnDemandFeatureView)
    (df_with_features : pyarg) (full_feature_names : bool) : result transformed :=
  match df_with_features with
  | AFrame df =>
      let+ r := _get_transformed_features_df self df full_feature_names in
      Ok (RFrame r)
  | _ => Raise TypeError
  end.

(** [get_transformed_features].  The class is decorated with
    [@typechecked]: an argument that is neither a dictionary nor a
    frame is refused with [TypeError] before the body runs.  In the
    body the arguments of both [cast] calls are written as
    [cast(features, <type>)]. *)
Definition get_transformed_features (self : OnDemandFeatureView)
    (features : pyarg) (full_feature_names : bool) : result transformed :=
  match features with
  | TypingAlias => Raise TypeError
  | ADict _ | AFrame _ =>
      if String.eqb (mode self) "python" then
        match features with
        | ADict _ =>
            call_transformed_features_dict self (cast features TypingAlias)
              full_feature_names
        | _ => Raise AssertionError
        end
      else if String.eqb (mode self) "pandas" then
        match features with
        | AFrame _ =>
            call_transformed_features_df self (cast features TypingAlias)
              full_feature_names
        | _ => Raise AssertionError
        end
      else Raise Exception
  end.

(** ** [__eq__] *)

#[global] Instance Field_eq_dec : EqDecision Field.t.
Proof. solve_decision. Defined.

#[global] Instance FeatureViewProjection_eq_dec :
  EqDecision FeatureViewProjection.t.
Proof. solve_decision. Defined.

#[global] Instance RequestSource_eq_dec : EqDecision RequestSource.t.
Proof. solve_decision. Defined.

(** [d1 == d2] on dictionaries: the same keys with equal values, in
    any order. *)
Definition dict_eqb {V} `{EqDecision V} (d1 d2 : dict V) : bool :=
  Nat.eqb (length d1) (length d2) &&
  forallb (fun kv => match dict_get (fst kv) d2 with
                     | Some v => bool_decide (snd kv = v)
                     | None => false
                     end) d1.

(** The right operand of a comparison. *)
Inductive pyother : Type :=
  | AnOnDemandFeatureView (o : OnDemandFeatureView)
  | AnotherObject.

(** [__eq__]; [super_eq] stands for [BaseFeatureView.__eq__], defined
    outside the analysed sources. *)
Definition __eq__ (super_eq : OnDemandFeatureView -> OnDemandFeatureView -> bool)
    (self : OnDemandFeatureView) (other : pyother) : result bool :=
  match other with
  | AnotherObject => Raise TypeError
  | AnOnDemandFeatureView other =>
      if negb (super_eq self other) then Ok false
      else if negb (dict_eqb (source_feature_view_projections self)
                             (source_feature_view_projections other))
              || negb (dict_eqb (source_request_sources self)
                                (source_request_sources other))
              || negb (String.eqb (udf_string self) (udf_string other))
              || negb (String.eqb (FunctionType.co_code (udf self))
                                  (FunctionType.co_code (udf other)))
      then Ok false
      else Ok true
  end.

(** ** Row-wise transformations

    The tabular form of a transformation that treats every row on its
    own: the row function applied to each row of the frame, the
    outputs collected column by column. *)
Definition rows_of_frame (df : dataframe) : list row :=
  map (fun values =>
         fold_left (fun d kv => dict_set (fst kv) (snd kv) d)
                   (combine (columns df) values) [])
      (zip_star (map snd df)).

Definition frame_of_rows (rows : list row) : dataframe :=
  match rows with
  | [] => []
  | r :: _ =>
      map (fun k =>
             (k, map (fun r' => match dict_get k r' with
                                | Some v => v
                                | None => PyNone
                                end) rows))
          (dict_keys r)
  end.

Fixpoint map_rows (f : row -> result row) (rows : list row)
  : result (list row) :=
  match rows with
  | [] => Ok []
  | r :: rest =>
      let+ o := f r in
      let+ os := map_rows f rest in
      Ok (o :: os)
  end.

Definition rowwise (f : row -> result row) (df : dataframe)
  : result dataframe :=
  let+ outs := map_rows f (rows_of_frame df) in
  Ok (frame_of_rows outs).

(** ** [OnDemandFeatureView.__init__], [__copy__] and the decorator *)

(** An element of [sources]: a request source, a projection, or a
    feature view, of which the constructor reads [name] and
    [projection]. *)
Inductive source : Type :=
  | ARequestSource (r : RequestSource.t)
  | AFeatureViewProjection (p : FeatureViewProjection.t)
  | AFeatureView (name : string) (projection : FeatureViewProjection.t).

(** Body of the loop over [sources]. *)
Definition add_source
    (acc : dict FeatureViewProjection.t * dict RequestSource.t)
    (odfv_source : source)
  : dict FeatureViewProjection.t * dict RequestSource.t :=
  match odfv_source with
  | ARequestSource r => (fst acc, dict_set (RequestSource.name r) r (snd acc))
  | AFeatureViewProjection p =>
      (dict_set (FeatureViewProjection.name p) p (fst acc), snd acc)
  | AFeatureView name projection => (dict_set name projection (fst acc), snd acc)
  end.

(** [__init__].  [mode] is a required keyword-only parameter: [None]
    stands for a call that does not pass it.  [projection] is the
    attribute that [BaseFeatureView.__init__], outside the analysed
    sources, leaves on the object. *)
Definition __init__ (projection : FeatureViewProjection.t) (name : string)
    (schema : list Field.t) (mode : option string) (sources : list source)
    (udf : FunctionType.t) (udf_string : string) : result OnDemandFeatureView :=
  match mode with
  | None => Raise TypeError
  | Some mode =>
      let filled := fold_left add_source sources ([], []) in
      if negb (mem mode ["python"; "pandas"]) then Raise Exception
      else Ok (mk name schema (fst filled) (snd filled) udf udf_string mode
                  projection)
  end.



(** ** [get_request_data_schema]

    [to_value_type] stands for [field.dtype.to_value_type()].  The
    schema of a request source is a list of fields here, so that the
    [List] branch is the one taken. *)
Definition get_request_data_schema {T : Type} (to_value_type : Field.t -> T)
    (self : OnDemandFeatureView) : dict T :=
  fold_left
    (fun schema request_source =>
       let new_schema :=
         fold_left
           (fun new_schema field =>
              dict_set (Field.name field) (to_value_type field) new_schema)
           (RequestSource.schema request_source) [] in
       dict_update schema new_schema)
    (dict_values (source_request_sources self)) [].

(** ** [get_requested_odfvs] *)

(** The inner loop: [true] when it reaches [append] and [break]. *)
Fixpoint is_requested (odfv_name : string) (features : list Field.t)
    (feature_refs : list string) : bool :=
  match features with
  | [] => false
  | feature :: rest =>
      if mem (odfv_name ++ ":" ++ Field.name feature) feature_refs then true
      else is_requested odfv_name rest feature_refs
  end.

(** [get_requested_odfvs]; [listing] is the outcome of
    [registry.list_on_demand_feature_views(project, allow_cache=True)]. *)
Definition get_requested_odfvs (feature_refs : list string)
    (listing : result (list OnDemandFeatureView))
  : result (list OnDemandFeatureView) :=
  let+ all_on_demand_feature_views := listing in
  Ok (fold_left
        (fun requested odfv =>
           if is_requested (name odfv) (features odfv) feature_refs
           then (requested ++ [odfv])%list
           else requested)
        all_on_demand_feature_views []).


(** The keys and the column lengths of an output dictionary. *)
Definition output_shape (self : OnDemandFeatureView) (full_feature_names : bool)
    (n : nat) (d : feature_columns) : Prop :=
  (forall k, dict_mem k d = true <->
     exists f, In f (features self) /\
       k = if full_feature_names
           then _get_projected_feature_name self (Field.name f)
           else Field.name f) /\
  (forall k col, dict_get k d = Some col -> length col = n).

(** ** The cells row mode fills

    The two names of a declared feature as the loop over
    [self.features] computes them. *)
Definition correct_name (self : OnDemandFeatureView) (full_feature_names : bool)
    (f : Field.t) : string :=
  if full_feature_names
  then _get_projected_feature_name self (Field.name f)
  else Field.name f.

Definition alias_name (self : OnDemandFeatureView) (full_feature_names : bool)
    (f : Field.t) : string :=
  if full_feature_names
  then Field.name f
  else _get_projected_feature_name self (Field.name f).

(** [v] is what the loop over [enumerate(rows)] assigns to
    [output_dict[k][i]]. *)
Definition cell (self : OnDemandFeatureView) (rows : list row)
    (aliases : dict string) (k : string) (i : nat) (v : pyval) : Prop :=
  exists r row_output,
    rows !! i = Some r /\
    FunctionType.call_row (udf self) r = Ok row_output /\
    pick row_output aliases k = Ok v.

(** Invariant of the loop over [enumerate(rows)]: every column has one
    entry per row, and the entries before row [m] are assigned. *)
Definition filled (self : OnDemandFeatureView) (rows : list row)
    (aliases : dict string) (m : nat) (d : feature_columns) : Prop :=
  forall k col, dict_get k d = Some col ->
    length col = length rows /\
    forall i, i < m -> exists v, col !! i = Some v /\ cell self rows aliases k i v.

(** ** The name a column is reported under

    What the renaming of tabular mode amounts to for one column label
    of the transformation's output. *)
Definition reported_name (self : OnDemandFeatureView)
    (full_feature_names : bool) (n : string) : string :=
  if full_feature_names then
    if mem n (map Field.name (features self))
    then _get_projected_feature_name self n
    else n
  else
    match find (fun f => String.eqb
                           (_get_projected_feature_name self (Field.name f)) n)
               (features self) with
    | Some f => Field.name f
    | None => n
    end.

End OnDemand.


(* ===================================================================== *)
(** * mysql_registry_store.py *)
(* ===================================================================== *)

Module MySQL.

(** The serialized catalog; [RegistryProto()] is the empty message and
    [FromString] reads a stored blob back. *)
Definition RegistryProto : Type := string.
Definition empty_proto : RegistryProto := EmptyString.
Definition FromString (blob : string) : RegistryProto := blob.

(** The database server as the client sees it: whether a connection
    can be made, and the rows [(version, registry)] of the registry
    table ([None]: the table does not exist). *)
Record server : Type := Server {
  reachable : bool;
  table : option (list (Z * string))
}.

Record MySQLRegistryConfig : Type := Config {
  host : option string;
  user : option string;
  password : option string;
  database : option string;
  port : option Z;
  path : string;
  cache_ttl_seconds : Z
}.

Inductive Connection : Type := Conn.

(** The attributes of a store.  [_conn] is [None] while the attribute
    has never been assigned, [Some None] when it holds a false value. *)
Record MySQLRegistryStore : Type := Store {
  db_config : MySQLRegistryConfig;
  table_name : string;
  store_cache_ttl_seconds : Z;
  _conn : option (option Connection)
}.

(** [__init__] assigns [db_config], [table_name] and
    [cache_ttl_seconds]; it does not assign [_conn]. *)
Definition __init__ (registry_config : MySQLRegistryConfig)
  : MySQLRegistryStore :=
  Store registry_config (path registry_config)
        (cache_ttl_seconds registry_config) None.

(** [pymysql.connect]: [OperationalError] when the server cannot be
    reached. *)
Definition connect (srv : server) : result Connection :=
  if reachable srv then Ok Conn else Raise OperationalError.

(** [_get_conn(self)]: the method declares no parameter besides
    [self]; [args] are the further positional arguments of a call. *)
Definition _get_conn (self : MySQLRegistryStore)
    (args : list MySQLRegistryConfig) (srv : server)
  : result (Connection * MySQLRegistryStore) :=
  match args with
  | _ :: _ => Raise TypeError
  | [] =>
      match _conn self with
      | None => Raise AttributeError
      | Some (Some c) => Ok (c, self)
      | Some None =>
          let+ c := connect srv in
          Ok (c, Store (db_config self) (table_name self)
                       (store_cache_ttl_seconds self) (Some (Some c)))
      end
  end.

(** The largest version of the table. *)
Definition max_version (rows : list (Z * string)) : option Z :=
  match rows with
  | [] => None
  | r :: rest => Some (fold_left Z.max (map fst rest) (fst r))
  end.

(** [cur.execute(SELECT registry .. WHERE version = (SELECT max(version) ..))]
    followed by [cur.fetchone()]. *)
Definition fetch_latest (srv : server) : result (option string) :=
  match table srv with
  | None => Raise DatabaseError
  | Some rows =>
      match max_version rows with
      | None => Ok None
      | Some m =>
          Ok (option_map snd (find (fun r => Z.eqb (fst r) m) rows))
      end
  end.

(** [except pymysql.err.DatabaseError]: the class and its subclasses. *)
Definition is_DatabaseError (e : exn) : bool :=
  match e with
  | DatabaseError | OperationalError => true
  | _ => false
  end.

(** [get_registry_proto]: the call is written
    [self._get_conn(self.db_config)]. *)
Definition get_registry_proto (self : MySQLRegistryStore) (srv : server)
  : result RegistryProto :=
  let registry_proto := empty_proto in
  let attempt :=
    let+ conn := _get_conn self [db_config self] srv in
    let+ row := fetch_latest srv in
    Ok (match row with
        | Some blob => FromString blob
        | None => registry_proto
        end) in
  match attempt with
  | Ok p => Ok p
  | Raise e => if is_DatabaseError e then Ok registry_proto else Raise e
  end.

End MySQL.


(* ===================================================================== *)
(** * Concrete definitions and inputs used in the examples *)
(* ===================================================================== *)

Module Scenario.

Import OnDemand.

(** The quickstart objects: the projection of [driver_hourly_stats]
    with its feature [conv_rate], and the request source with
    [int_val]. *)
Definition conv_rate : Field.t := Field.mk "conv_rate".

Definition driver_hourly_stats : FeatureViewProjection.t :=
  FeatureViewProjection.mk "driver_hourly_stats" [conv_rate]
                           "driver_hourly_stats".

Definition input_request : RequestSource.t :=
  RequestSource.mk "input_request" [Field.mk "int_val"].

(** [r[k]] for an integer field. *)
Definition int_item (k : string) (r : row) : result Z :=
  match dict_get k r with
  | Some (PyInt n) => Ok n
  | Some PyNone => Raise TypeError
  | None => Raise KeyError
  end.

(** [output = conv_rate + int_val], one row at a time. *)
Definition add_int_val (r : row) : result row :=
  let+ a := int_item "conv_rate" r in
  let+ b := int_item "int_val" r in
  Ok [("output", PyInt (a + b))].

(** The same transformation as a function object: what it does on a
    row, and row by row on a frame. *)
Definition add_int_val_udf : FunctionType.t :=
  FunctionType.mk "bytecode" add_int_val (rowwise add_int_val).

Definition transformed_conv_rate (mode : string) : OnDemandFeatureView :=
  mk "transformed_conv_rate" [Field.mk "output"]
     [("driver_hourly_stats", driver_hourly_stats)]
     [("input_request", input_request)]
     add_int_val_udf "def transformed_conv_rate(inputs): ..." mode
     (FeatureViewProjection.mk "transformed_conv_rate" [Field.mk "output"]
                               "transformed_conv_rate").

(** Two rows: the upstream feature under its qualified name, and the
    request field. *)
Definition batch : feature_columns :=
  [("driver_hourly_stats__conv_rate", [PyInt 1; PyInt 10]);
   ("int_val", [PyInt 2; PyInt 20])].

(** [output = 2 * conv_rate]: a view without request source. *)
Definition double (r : row) : result row :=
  let+ a := int_item "conv_rate" r in
  Ok [("output", PyInt (2 * a))].

Definition doubled (call_df : dataframe -> result dataframe)
  : OnDemandFeatureView :=
  mk "doubled" [Field.mk "output"]
     [("driver_hourly_stats", driver_hourly_stats)] []
     (FunctionType.mk "bytecode" double call_df)
     "def doubled(inputs): ..." "python"
     (FeatureViewProjection.mk "doubled" [Field.mk "output"] "doubled").

Definition upstream_only : feature_columns :=
  [("driver_hourly_stats__conv_rate", [PyInt 1; PyInt 10])].

(** A frame transformation that adds its output column to the frame
    it received and returns that frame. *)
Definition double_in_place (df : dataframe) : result dataframe :=
  let+ o := rowwise double df in
  Ok (dict_update df o).

(** Two definitions that differ in the text of the transformation
    only. *)
Definition formatted (udf_string : string) : OnDemandFeatureView :=
  mk "transformed_conv_rate" [Field.mk "output"]
     [("driver_hourly_stats", driver_hourly_stats)]
     [("input_request", input_request)]
     add_int_val_udf udf_string "pandas"
     (FeatureViewProjection.mk "transformed_conv_rate" [Field.mk "output"]
                               "transformed_conv_rate").

Import Memory.

(** An [is_valid] that accepts every entity. *)
Definition valid (o : pyobj) : result unit := Ok tt.

Definition fresh_registry : state := State empty_heap init.

Definition driver : pyobj := PyObj Entity "driver" None None None None.

(** [e = Entity("driver"); registry.apply_entity(e, "p")], the clock
    reading 1.  [e] is the first object of the heap, at address 0. *)
Definition apply_driver : result unit * state :=
  (let* e := alloc_obj driver in
   apply_entity valid e "p" 1%Z) fresh_registry.

Definition driver_applied : state := snd apply_driver.

(** A batch feature view with an empty materialization log and one
    tag, applied to project ["p"].  The log is the list at address 0,
    the tags the dictionary at address 0 and the view the object at
    address 0. *)
Definition stats_view (log tags : addr) : pyobj :=
  PyObj FeatureView "driver_hourly_stats" None None (Some log) (Some tags).

Definition apply_view : result unit * state :=
  (let* log := alloc_list [] in
   let* tags := alloc_dict [("production", "True")] in
   let* fv := alloc_obj (stats_view log tags) in
   apply_feature_view fv "p") fresh_registry.

Definition view_applied : state := snd apply_view.

(** A [__copy__] for the view classes, to run the operations at
    concrete inputs: the copy has the class, the name and the tags of
    the original, no timestamps, and a new, empty log. *)
Definition rebuilt : ViewCopy :=
  fun o h =>
    let log := fresh (dom (lists h)) in
    (Ok (PyObj (ob_class o) (Py.name o) None None (Some log) (tags o)),
     (<[log := []]> (lists h), dicts h)).









(** Two data sources, not yet applied: the object at address 0 is
    named ["b:c"], the object at address 1 is named ["c"]. *)
Definition source_named (n : string) : pyobj :=
  PyObj DataSource n None None None None.

Definition sources_ready : state :=
  snd ((let* d := alloc_obj (source_named "b:c") in
        alloc_obj (source_named "c")) fresh_registry).

(** The entity [driver] at address 0, not yet applied. *)
Definition driver_ready : state := snd (alloc_obj driver fresh_registry).

(** An on-demand feature view at address 0, not yet applied. *)
Definition on_demand_ready : state :=
  snd (alloc_obj (PyObj Py.OnDemandFeatureView "good" None None None None)
                 fresh_registry).



(** A server with three stored versions of the registry. *)
Definition three_versions : MySQL.server :=
  MySQL.Server true (Some [(1%Z, "one"); (3%Z, "three"); (2%Z, "two")]).


End Scenario.


(* ===================================================================== *)
(** * Properties *)
(* ===================================================================== *)

Section split_facts.
Variable sep : ascii.


Lemma split_no_sep (s : string) :
  has_char sep s = false -> split sep s = [s].
Proof.
  induction s as [|c s IH]; simpl; [reflexivity|].
  destruct (Ascii.eqb c sep); simpl; [discriminate|].
  intros H. now rewrite (IH H).
Qed.

Lemma split_app_sep (p n : string) :
  has_char sep p = false ->
  split sep (p ++ String sep n) = p :: split sep n.
Proof.
  induction p as [|c p IH]; simpl.
  - intros _. now rewrite Ascii.eqb_refl.
  - destruct (Ascii.eqb c sep); simpl; [discriminate|].
    intros H. now rewrite (IH H).
Qed.


End split_facts.

Lemma invert_project_key_roundtrip (project name : string) :
  has_char colon project = false ->
  has_char colon name = false ->
  invert_projected_key (project_key project name) = Ok (project, name).
Proof.
  intros Hp Hn. unfold invert_projected_key, project_key.
  rewrite (split_app_sep colon project name Hp).
  now rewrite (split_no_sep colon name Hn).
Qed.


(** ** Dictionaries *)

Section dictionaries.
Context {V : Type}.
Implicit Types (d : dict V) (k : string) (v : V).

Lemma dict_get_set_same d k v : dict_get k (dict_set k v d) = Some v.
Proof.
  induction d as [|[k' v'] d IH]; simpl.
  - now rewrite String.eqb_refl.
  - destruct (String.eqb k k') eqn:E; simpl; rewrite E; [reflexivity|exact IH].
Qed.

Lemma dict_get_set_other d k k' v :
  k <> k' -> dict_get k' (dict_set k v d) = dict_get k' d.
Proof.
  intros Hne. induction d as [|[k0 v0] d IH]; simpl.
  - destruct (String.eqb_spec k' k); [congruence|reflexivity].
  - destruct (String.eqb_spec k k0) as [->|Hk]; simpl.
    + destruct (String.eqb_spec k' k0); [congruence|reflexivity].
    + destruct (String.eqb_spec k' k0); [reflexivity|exact IH].
Qed.

Lemma dict_mem_true d k :
  dict_mem k d = true <-> exists v, dict_get k d = Some v.
Proof.
  unfold dict_mem. destruct (dict_get k d); split; eauto.
  - discriminate.
  - intros [v [=]].
Qed.

Lemma dict_get_In d k v : dict_get k d = Some v -> In (k, v) d.
Proof.
  induction d as [|[k' v'] d IH]; simpl; [discriminate|].
  destruct (String.eqb_spec k k') as [->|Hk].
  - intros [= ->]. now left.
  - intros H. right. now apply IH.
Qed.
End dictionaries.

(* ===================================================================== *)
(** ** The MySQL registry store *)
(* ===================================================================== *)

Section mysql_store.
Import MySQL.

(** A store as the constructor leaves it has no [_conn] attribute:
    even a call of [_get_conn] without further argument fails. *)
Lemma get_conn_after_init (registry_config : MySQLRegistryConfig)
    (srv : server) :
  _get_conn (__init__ registry_config) [] srv = Raise AttributeError.
Proof. reflexivity. Qed.

(** The [except] clause covers an unreachable server. *)
Lemma connect_unreachable_is_DatabaseError (srv : server) (e : exn) :
  reachable srv = false -> connect srv = Raise e -> is_DatabaseError e = true.
Proof.
  unfold connect. intros ->. intros [= <-]. reflexivity.
Qed.

(** C9, evaluated on the code: whatever the store and the state of the
    database server (reachable or not, table present or not, rows or
    none), [get_registry_proto] neither returns the empty catalog nor
    the snapshot of highest version: the call [self._get_conn(self.db_config)]
    passes an argument that [_get_conn(self)] does not take, and the
    resulting [TypeError] is not caught by [except DatabaseError]. *)
Theorem C9_get_registry_proto_raises_TypeError
    (self : MySQLRegistryStore) (srv : server) :
  get_registry_proto self srv = Raise TypeError.
Proof. reflexivity. Qed.
End mysql_store.

(* ===================================================================== *)
(** ** The transformation engine *)
(* ===================================================================== *)

Section engine.
Import OnDemand.
Import Scenario.

(** *** Tabular mode *)

Lemma set_columns_values (df : dataframe) (f : string -> string) :
  map snd (set_columns (map f (columns df)) df) = map snd df.
Proof.
  unfold set_columns, columns.
  induction df as [|[n c] df IH]; simpl; [reflexivity|].
  now rewrite IH.
Qed.

Lemma set_columns_length (df : dataframe) (f : string -> string) :
  length (set_columns (map f (columns df)) df) = length df.
Proof.
  rewrite <- (length_map snd (set_columns _ _)), set_columns_values.
  apply length_map.
Qed.

(** In tabular mode the flag only chooses labels: both settings
    return the columns of the transformation's output, in the same
    order and with the same values; nothing is dropped. *)
Lemma df_values_independent_of_flag (self : OnDemandFeatureView)
    (df : dataframe) :
  match _get_transformed_features_df self df true,
        _get_transformed_features_df self df false with
  | Ok a, Ok b => map snd a = map snd b
  | Raise e, Raise e' => e = e'
  | _, _ => False
  end.
Proof.
  unfold _get_transformed_features_df. cbv zeta.
  destruct (FunctionType.call_df (udf self) _) as [out|e]; simpl;
    [|reflexivity].
  now rewrite !set_columns_values.
Qed.

(** Tabular mode returns every column of the transformation's
    output: none is dropped. *)
Lemma df_keeps_all_columns (self : OnDemandFeatureView) (df out : dataframe)
    (full_feature_names : bool) :
  FunctionType.call_df (udf self) (from_dict (df_duplicate_all self (to_dict df)).1)
    = Ok out ->
  exists res,
    _get_transformed_features_df self df full_feature_names = Ok res /\
    length res = length out /\ map snd res = map snd out.
Proof.
  intros Hout. unfold _get_transformed_features_df. cbv zeta.
  rewrite Hout. simpl. eexists. split; [reflexivity|].
  split; [apply set_columns_length | apply set_columns_values].
Qed.

(** *** Row mode *)

(** C1, evaluated on the code: on the quickstart definition
    ([output = conv_rate + int_val], the transformation applied row
    by row) and a batch of two rows, tabular mode returns the outputs
    3 and 30 while row mode raises [KeyError]: the second
    comprehension of [rows] looks every key of [feature_dict] up in
    [name_map], which has no entry for the request field [int_val]. *)
Theorem C1_row_mode_raises_where_tabular_mode_returns :
  _get_transformed_features_df (transformed_conv_rate "pandas") batch false
    = Ok [("output", [PyInt 3; PyInt 30])] /\
  _get_transformed_features_dict (transformed_conv_rate "python") batch false
    = Raise KeyError /\
  build_name_map (transformed_conv_rate "python") batch
    = Ok [("driver_hourly_stats__conv_rate", "conv_rate")].
Proof. repeat split; vm_compute; reflexivity. Qed.

(** Through [get_transformed_features] neither mode reaches the
    transformation: [cast] returns its second argument, the type. *)
Lemma get_transformed_features_raises (self : OnDemandFeatureView)
    (features : pyarg) (full_feature_names : bool) :
  exists e, get_transformed_features self features full_feature_names
            = Raise e.
Proof.
  unfold get_transformed_features.
  destruct features; [| |eauto];
    (destruct (String.eqb (mode self) "python");
     [|destruct (String.eqb (mode self) "pandas")]);
    simpl; eauto.
Qed.

(** C2, evaluated on the code: in row mode, for a transformation that
    returns its feature under the short name [output], the call with
    [full_feature_names=True] returns the values 2 and 20 under
    [doubled__output], and the call with [full_feature_names=False]
    raises [KeyError]: the default of [row_output.get] is
    [row_output["doubled__output"]], evaluated before [get] is
    called. *)
Theorem C2_row_mode_flag_changes_outcome :
  _get_transformed_features_dict (doubled (rowwise double)) upstream_only true
    = Ok [("doubled__output", [PyInt 2; PyInt 20])] /\
  _get_transformed_features_dict (doubled (rowwise double)) upstream_only false
    = Raise KeyError.
Proof. split; vm_compute; reflexivity. Qed.

(** The default of [get] is looked up first: a row output without
    the alias of a feature fails, whether or not it has the feature. *)
Lemma pick_needs_alias (row_output : row) (aliases : dict string)
    (feature alias : string) :
  dict_get feature aliases = Some alias ->
  dict_get alias row_output = None ->
  pick row_output aliases feature = Raise KeyError.
Proof.
  intros Ha Hr. unfold pick, dict_item. now rewrite Ha; simpl; rewrite Hr.
Qed.

(** C3, evaluated on the code: tabular mode, a transformation that
    adds [output] to the frame it receives.  The column [conv_rate]
    was not in the input and is not declared; it was added by the
    duplication step, and it is in the result: the frame made by
    [drop] is discarded. *)
Theorem C3_duplicated_column_is_returned :
  mem "conv_rate" (columns upstream_only) = false /\
  mem "conv_rate" (map Field.name (features (doubled double_in_place)))
    = false /\
  _get_transformed_features_df (doubled double_in_place) upstream_only false
    = Ok [("driver_hourly_stats__conv_rate", [PyInt 1; PyInt 10]);
          ("conv_rate", [PyInt 1; PyInt 10]);
          ("output", [PyInt 2; PyInt 20])].
Proof. repeat split; vm_compute; reflexivity. Qed.

(** *** Why row mode fails *)

Lemma fold_left_raise {A B : Type} (f : result A -> B -> result A)
    (l : list B) (e : exn) :
  (forall x, f (Raise e) x = Raise e) -> fold_left f l (Raise e) = Raise e.
Proof.
  intros Hf. induction l as [|x l IH]; simpl; [reflexivity|].
  now rewrite Hf.
Qed.

(** A key of [feature_dict] without entry in [name_map] makes the
    row fail: the request fields, and every column that is not the
    qualified name of an upstream feature. *)
Lemma make_row_unmapped_key (keys : list string) (name_map : dict string)
    (values : list pyval) (k : string) (v : pyval) :
  In (k, v) (combine keys values) ->
  dict_get k name_map = None ->
  make_row keys name_map values = Raise KeyError.
Proof.
  intros Hin Hk. unfold make_row.
  set (step := fun (acc : result (dict pyval)) (kv : string * pyval) =>
                 let+ d := acc in
                 let+ k' := dict_item kv.1 name_map in
                 Ok (dict_set k' kv.2 d)).
  assert (H : forall l d, In (k, v) l ->
                          fold_left step l (Ok d) = Raise KeyError).
  { induction l as [|kv l IH]; intros d Hl; [destruct Hl|].
    change (fold_left step l (step (Ok d) kv) = Raise KeyError).
    assert (Hstep : step (Ok d) kv =
                    match dict_get kv.1 name_map with
                    | Some k' => Ok (dict_set k' kv.2 d)
                    | None => Raise KeyError
                    end).
    { unfold step, dict_item. simpl. now destruct (dict_get kv.1 name_map). }
    rewrite Hstep.
    destruct (dict_get kv.1 name_map) as [k'|] eqn:Hkv.
    - apply IH. destruct Hl as [->|Hl]; [|exact Hl].
      simpl in Hkv. congruence.
    - now apply fold_left_raise. }
  match goal with
  | |- rbind ?x _ = _ =>
      replace x with (@Raise (dict pyval) KeyError)
        by (symmetry; apply (H _ [] Hin))
  end.
  reflexivity.
Qed.

Lemma dict_mem_set {V : Type} (d : dict V) (k k' : string) (v : V) :
  dict_mem k' (dict_set k v d) = true -> k' = k \/ dict_mem k' d = true.
Proof.
  destruct (String.eqb_spec k k') as [->|Hne]; [now left|].
  unfold dict_mem. rewrite dict_get_set_other by exact Hne. now right.
Qed.

Lemma name_map_step_inv (feature_dict : feature_columns)
    (p : FeatureViewProjection.t) (acc : result (dict string))
    (feature : Field.t) :
  name_map_inv feature_dict acc ->
  name_map_inv feature_dict (name_map_step feature_dict p acc feature).
Proof.
  intros [->|(nm & -> & Hnm)]; [now left|].
  unfold name_map_step. simpl.
  destruct (dict_mem (full_feature_ref p feature) feature_dict) eqn:Hfull.
  - right. eexists. split; [reflexivity|].
    intros k Hk. apply dict_mem_set in Hk as [->|Hk]; auto.
  - destruct (dict_mem (Field.name feature) feature_dict) eqn:Hshort.
    + unfold dict_item.
      destruct (dict_get (full_feature_ref p feature) nm) as [v|] eqn:Hget;
        simpl; [|now left].
      right. eexists. split; [reflexivity|].
      intros k Hk. apply dict_mem_set in Hk as [->|Hk]; auto.
    + right. eauto.
Qed.

(** An upstream feature that [feature_dict] has under its short name
    only: [name_map[full_feature_ref]] is read before any assignment
    could have made that key. *)
Lemma name_map_step_short_only (feature_dict : feature_columns)
    (p : FeatureViewProjection.t) (acc : result (dict string))
    (feature : Field.t) :
  name_map_inv feature_dict acc ->
  dict_mem (full_feature_ref p feature) feature_dict = false ->
  dict_mem (Field.name feature) feature_dict = true ->
  name_map_step feature_dict p acc feature = Raise KeyError.
Proof.
  intros [->|(nm & -> & Hnm)] Hfull Hshort; [reflexivity|].
  unfold name_map_step. simpl. rewrite Hfull, Hshort.
  unfold dict_item.
  destruct (dict_get (full_feature_ref p feature) nm) as [v|] eqn:Hget;
    [|reflexivity].
  assert (Hm : dict_mem (full_feature_ref p feature) nm = true)
    by (unfold dict_mem; now rewrite Hget).
  apply Hnm in Hm. congruence.
Qed.

Lemma name_map_features_inv (feature_dict : feature_columns)
    (p : FeatureViewProjection.t) (feats : list Field.t)
    (acc : result (dict string)) :
  name_map_inv feature_dict acc ->
  name_map_inv feature_dict
    (fold_left (name_map_step feature_dict p) feats acc).
Proof.
  revert acc. induction feats as [|f feats IH]; intros acc Hacc; [exact Hacc|].
  simpl. apply IH. now apply name_map_step_inv.
Qed.

Lemma name_map_features_short_only (feature_dict : feature_columns)
    (p : FeatureViewProjection.t) (feats : list Field.t)
    (acc : result (dict string)) (feature : Field.t) :
  name_map_inv feature_dict acc ->
  In feature feats ->
  dict_mem (full_feature_ref p feature) feature_dict = false ->
  dict_mem (Field.name feature) feature_dict = true ->
  fold_left (name_map_step feature_dict p) feats acc = Raise KeyError.
Proof.
  intros Hacc Hin Hfull Hshort. revert acc Hacc.
  induction feats as [|f feats IH]; intros acc Hacc; [destruct Hin|].
  simpl. destruct Hin as [->|Hin].
  - rewrite (name_map_step_short_only _ _ _ _ Hacc Hfull Hshort).
    apply fold_left_raise. reflexivity.
  - apply (IH Hin). now apply name_map_step_inv.
Qed.

(** Row mode raises [KeyError] as soon as one upstream feature comes
    under its short name only, whatever the transformation and the
    flag. *)
Lemma short_name_input_raises (self : OnDemandFeatureView)
    (feature_dict : feature_columns) (full_feature_names : bool)
    (p : FeatureViewProjection.t) (feature : Field.t) :
  In p (dict_values (source_feature_view_projections self)) ->
  In feature (FeatureViewProjection.features p) ->
  dict_mem (full_feature_ref p feature) feature_dict = false ->
  dict_mem (Field.name feature) feature_dict = true ->
  _get_transformed_features_dict self feature_dict full_feature_names
    = Raise KeyError.
Proof.
  intros Hp Hf Hfull Hshort.
  assert (Hnm : build_name_map self feature_dict = Raise KeyError).
  { unfold build_name_map.
    set (outer := fun acc p0 =>
                    fold_left (name_map_step feature_dict p0)
                              (FeatureViewProjection.features p0) acc).
    assert (H : forall ps acc, name_map_inv feature_dict acc -> In p ps ->
                               fold_left outer ps acc = Raise KeyError).
    { induction ps as [|p0 ps IH]; intros acc Hacc Hps; [destruct Hps|].
      simpl. destruct Hps as [->|Hps].
      - unfold outer at 2.
        rewrite (name_map_features_short_only _ _ _ _ _ Hacc Hf Hfull Hshort).
        apply fold_left_raise. intros p0. unfold outer.
        apply fold_left_raise. reflexivity.
      - apply IH; [|exact Hps]. unfold outer.
        now apply name_map_features_inv. }
    apply H; [|exact Hp]. right. exists []. split; [reflexivity|].
    intros k Hk. discriminate. }
  unfold _get_transformed_features_dict. now rewrite Hnm.
Qed.

(** *** Equality of definitions *)

(** C8, counterexample: two definitions with the same projections,
    request sources, declared outputs and compiled code, whose
    source texts differ, compare unequal, even when the base-class
    comparison succeeds. *)
Lemma C8_counterexample :
  source_feature_view_projections (formatted "def f(x): return x")
    = source_feature_view_projections (formatted "def f(x):  return x") /\
  source_request_sources (formatted "def f(x): return x")
    = source_request_sources (formatted "def f(x):  return x") /\
  features (formatted "def f(x): return x")
    = features (formatted "def f(x):  return x") /\
  FunctionType.co_code (udf (formatted "def f(x): return x"))
    = FunctionType.co_code (udf (formatted "def f(x):  return x")) /\
  __eq__ (fun _ _ => true) (formatted "def f(x): return x")
         (AnOnDemandFeatureView (formatted "def f(x):  return x"))
    = Ok false.
Proof. repeat split. Qed.

(** C8, amended: two definitions compare equal exactly when the
    base-class comparison succeeds, the projection and request-source
    dictionaries are equal, the source texts [udf_string] are equal
    and the bytecodes [co_code] are equal. *)
Theorem C8_eq_compares_text_and_code
    (super_eq : OnDemandFeatureView -> OnDemandFeatureView -> bool)
    (self other : OnDemandFeatureView) :
  __eq__ super_eq self (AnOnDemandFeatureView other) = Ok true <->
  super_eq self other = true /\
  dict_eqb (source_feature_view_projections self)
           (source_feature_view_projections other) = true /\
  dict_eqb (source_request_sources self)
           (source_request_sources other) = true /\
  udf_string self = udf_string other /\
  FunctionType.co_code (udf self) = FunctionType.co_code (udf other).
Proof.
  unfold __eq__.
  destruct (super_eq self other); simpl.
  2: { split; [discriminate | intros [H _]; discriminate]. }
  destruct (dict_eqb (source_feature_view_projections self) _); simpl.
  2: { split; [discriminate | intros (_ & H & _); discriminate]. }
  destruct (dict_eqb (source_request_sources self) _); simpl.
  2: { split; [discriminate | intros (_ & _ & H & _); discriminate]. }
  destruct (String.eqb_spec (udf_string self) (udf_string other)); simpl.
  2: { split; [discriminate | intros (_ & _ & _ & H & _); contradiction]. }
  destruct (String.eqb_spec (FunctionType.co_code (udf self))
                            (FunctionType.co_code (udf other))); simpl.
  2: { split; [discriminate | intros (_ & _ & _ & _ & H); contradiction]. }
  split; auto.
Qed.

(** A comparison with an object of another class raises. *)
Lemma eq_other_class
    (super_eq : OnDemandFeatureView -> OnDemandFeatureView -> bool)
    (self : OnDemandFeatureView) :
  __eq__ super_eq self AnotherObject = Raise TypeError.
Proof. reflexivity. Qed.
End engine.

(* ===================================================================== *)
(** ** The in-memory registry *)
(* ===================================================================== *)

Import Memory.

Ltac run :=
  repeat (progress
            (unfold bind, ret, raise, lift, get_obj, set_obj, alloc_obj,
                    get_list, set_list, alloc_list, get_dict, set_dict,
                    alloc_dict, self_dict, self_dict_set, self_dict_del,
                    list_append, dict_setitem in *; simpl in * )).

Lemma sel_upd_same (a : attr) (d : dict addr) (r : MemoryRegistry) :
  sel a (upd a d r) = d.
Proof. now destruct a. Qed.

Lemma sel_upd_other (a b : attr) (d : dict addr) (r : MemoryRegistry) :
  a <> b -> sel b (upd a d r) = sel b r.
Proof. destruct a, b; simpl; congruence. Qed.

Lemma upd_sel (a : attr) (r : MemoryRegistry) : upd a (sel a r) r = r.
Proof. now destruct a, r. Qed.


(** *** Applying *)

(** An apply that is not [apply_entity] writes no object: the
    timestamps of the object it stores stay as the caller left them. *)
Lemma apply_in_heap (a : attr) (obj : addr) (project : string) (s : state) :
  st_heap (snd (apply_in a obj project s)) = st_heap s.
Proof.
  unfold apply_in. run.
  destruct (objs (st_heap s) !! obj); simpl; [|reflexivity].
  destruct (dict_mem _ _); reflexivity.
Qed.

Lemma apply_feature_view_heap (feature_view : addr) (project : string)
    (s : state) :
  st_heap (snd (apply_feature_view feature_view project s)) = st_heap s.
Proof.
  unfold apply_feature_view, _fv_registry. run.
  destruct (objs (st_heap s) !! feature_view) as [o|]; simpl; [|reflexivity].
  destruct (ob_class o); simpl; try reflexivity;
    destruct (dict_mem _ _); reflexivity.
Qed.

(** A second apply under a key that is taken raises and changes
    nothing. *)
Lemma apply_in_duplicate (a : attr) (obj : addr) (o : pyobj)
    (project : string) (s : state) :
  objs (st_heap s) !! obj = Some o ->
  dict_mem (project_key project (name o)) (sel a (st_self s)) = true ->
  apply_in a obj project s = (Raise RegistryError, s).
Proof.
  intros Ho Hk. unfold apply_in. run. rewrite Ho. simpl. now rewrite Hk.
Qed.

Lemma apply_in_stores (a : attr) (obj : addr) (project : string)
    (s s1 : state) :
  apply_in a obj project s = (Ok tt, s1) ->
  exists o, objs (st_heap s) !! obj = Some o /\
            dict_mem (project_key project (name o)) (sel a (st_self s)) = false /\
            dict_get (project_key project (name o)) (sel a (st_self s1))
              = Some obj.
Proof.
  unfold apply_in. run.
  destruct (objs (st_heap s) !! obj) as [o|]; simpl; [|discriminate].
  destruct (dict_mem _ _) eqn:E; [discriminate|].
  intros [= <-]. exists o. simpl. rewrite sel_upd_same.
  repeat split; auto. apply dict_get_set_same.
Qed.

(** [apply_entity] on a free key: the entity is stored, created at
    [now] unless it carried a creation time, updated at [now]. *)
Lemma apply_entity_fresh (is_valid : pyobj -> result unit) (entity : addr)
    (e : pyobj) (project : string) (now : datetime) (s : state) :
  objs (st_heap s) !! entity = Some e ->
  is_valid e = Ok tt ->
  dict_mem (project_key project (name e)) (entities (st_self s)) = false ->
  exists s1,
    apply_entity is_valid entity project now s = (Ok tt, s1) /\
    stored a_entities project (name e) s1 =
      Some (PyObj (ob_class e) (name e)
                  (Some (default now (created_timestamp e)))
                  (Some now) (materialization_intervals e) (tags e)).
Proof.
  intros He Hv Hk. unfold apply_entity, stored. run. rewrite He. simpl.
  rewrite Hv. simpl.
  destruct (created_timestamp e) as [t|] eqn:Hc; simpl.
  - rewrite He. simpl. rewrite lookup_insert_eq. simpl. rewrite Hk.
    eexists. split; [reflexivity|]. simpl.
    rewrite dict_get_set_same. simpl. rewrite lookup_insert_eq.
    unfold set_last_updated_timestamp. simpl. now rewrite Hc.
  - repeat (rewrite lookup_insert_eq; simpl).
    rewrite Hk.
    eexists. split; [reflexivity|]. simpl.
    rewrite dict_get_set_same. simpl. now rewrite lookup_insert_eq.
Qed.

(** C5, evaluated on the code: a batch feature view without
    timestamps is applied with success; the stored view has neither a
    creation time nor an update time.  Only [apply_entity] writes
    timestamps; [apply_feature_view] (and [apply_data_source],
    [apply_feature_service], [apply_saved_dataset]) store the object as
    it is. *)
Theorem C5_apply_feature_view_sets_no_timestamp :
  fst Scenario.apply_view = Ok tt /\
  stored a_feature_views "p" "driver_hourly_stats" Scenario.view_applied
    = Some (PyObj FeatureView "driver_hourly_stats" None None (Some 0)
                  (Some 0)).
Proof. split; vm_compute; reflexivity. Qed.

(** C6, evaluated on the code: the entity [driver] is applied to
    project [p] at time 1, then the same object is applied again at
    time 2.  The second apply raises the duplicate error, and the
    stored entity is no longer what it was: its update time is 2.
    [apply_entity] writes the timestamps of its argument before it
    looks the key up, and the argument is the stored object. *)
Theorem C6_failed_apply_entity_changes_stored_entity :
  fst Scenario.apply_driver = Ok tt /\
  stored a_entities "p" "driver" Scenario.driver_applied
    = Some (PyObj Entity "driver" (Some 1%Z) (Some 1%Z) None None) /\
  fst (apply_entity Scenario.valid 0 "p" 2%Z Scenario.driver_applied)
    = Raise RegistryError /\
  stored a_entities "p" "driver"
         (snd (apply_entity Scenario.valid 0 "p" 2%Z Scenario.driver_applied))
    = Some (PyObj Entity "driver" (Some 1%Z) (Some 2%Z) None None).
Proof. repeat split; vm_compute; reflexivity. Qed.

(** The dictionaries themselves are left alone by a failed
    [apply_entity], and so is every object but the argument. *)
Lemma apply_entity_duplicate (is_valid : pyobj -> result unit)
    (entity : addr) (e : pyobj) (project : string) (now : datetime)
    (s : state) :
  objs (st_heap s) !! entity = Some e ->
  is_valid e = Ok tt ->
  dict_mem (project_key project (name e)) (entities (st_self s)) = true ->
  exists s1,
    apply_entity is_valid entity project now s = (Raise RegistryError, s1) /\
    st_self s1 = st_self s /\
    lists (st_heap s1) = lists (st_heap s) /\
    dicts (st_heap s1) = dicts (st_heap s) /\
    forall x, x <> entity -> objs (st_heap s1) !! x = objs (st_heap s) !! x.
Proof.
  intros He Hv Hk. unfold apply_entity. run. rewrite He. simpl.
  rewrite Hv. simpl.
  destruct (created_timestamp e) as [t|] eqn:Hc; simpl.
  - rewrite He. simpl. rewrite lookup_insert_eq. simpl. rewrite Hk.
    eexists. split; [reflexivity|]. simpl. repeat split.
    intros x Hx. now rewrite lookup_insert_ne.
  - repeat (rewrite lookup_insert_eq; simpl).
    rewrite Hk.
    eexists. split; [reflexivity|]. simpl. repeat split.
    intros x Hx. now rewrite !lookup_insert_ne.
Qed.

(** The defect behind the example, in general: when the argument of a
    failed [apply_entity] is the stored object, the stored entry takes
    the new update time. *)
Lemma apply_entity_again (is_valid : pyobj -> result unit)
    (entity : addr) (e : pyobj) (project : string) (now : datetime)
    (s : state) :
  objs (st_heap s) !! entity = Some e ->
  is_valid e = Ok tt ->
  dict_get (project_key project (name e)) (entities (st_self s))
    = Some entity ->
  fst (apply_entity is_valid entity project now s) = Raise RegistryError /\
  stored a_entities project (name e)
         (snd (apply_entity is_valid entity project now s))
    = Some (PyObj (ob_class e) (name e)
                  (Some (default now (created_timestamp e)))
                  (Some now) (materialization_intervals e) (tags e)).
Proof.
  intros He Hv Hk.
  assert (Hm : dict_mem (project_key project (name e)) (entities (st_self s))
               = true) by (unfold dict_mem; now rewrite Hk).
  unfold apply_entity, stored. run. rewrite He. simpl. rewrite Hv. simpl.
  destruct (created_timestamp e) as [t|] eqn:Hc; simpl.
  - rewrite He. simpl. rewrite lookup_insert_eq. simpl. rewrite Hm.
    simpl. rewrite Hk. split; [reflexivity|]. rewrite lookup_insert_eq.
    unfold set_last_updated_timestamp. simpl. now rewrite Hc.
  - repeat (rewrite lookup_insert_eq; simpl).
    rewrite Hm. simpl. rewrite Hk. split; [reflexivity|].
    now rewrite lookup_insert_eq.
Qed.

(** A successful apply puts the key of its object in the dictionary. *)
Lemma apply_in_holds_key (a : attr) (obj : addr) (project : string)
    (s s1 : state) :
  apply_in a obj project s = (Ok tt, s1) ->
  exists o, objs (st_heap s) !! obj = Some o /\
            dict_mem (project_key project (name o)) (sel a (st_self s1)) = true.
Proof.
  intros H. destruct (apply_in_stores a obj project s s1 H) as (o & Ho & _ & Hg).
  exists o. split; [exact Ho|]. apply dict_mem_true. eauto.
Qed.

Lemma apply_feature_view_holds_key (feature_view : addr) (project : string)
    (s s1 : state) :
  apply_feature_view feature_view project s = (Ok tt, s1) ->
  exists o a, objs (st_heap s) !! feature_view = Some o /\
              In a fv_registries /\
              dict_mem (project_key project (name o)) (sel a (st_self s1))
                = true.
Proof.
  unfold apply_feature_view, _fv_registry, fv_registries. run.
  destruct (objs (st_heap s) !! feature_view) as [o|]; simpl; [|discriminate].
  destruct (ob_class o); simpl; try discriminate;
    (destruct (dict_mem _ _) eqn:E; [discriminate|]); intros [= <-].
  1: exists o, a_stream_feature_views.
  2: exists o, a_feature_views.
  3: exists o, a_on_demand_feature_views.
  4: exists o, a_request_feature_views.
  all: split; [reflexivity|]; split; [simpl; tauto|]; simpl;
    apply dict_mem_true; eexists; apply dict_get_set_same.
Qed.

(** *** Materialization *)

Lemma apply_materialization_absent (feature_view : addr) (fvo : pyobj)
    (project : string) (start_date end_date now : datetime) (s : state) :
  objs (st_heap s) !! feature_view = Some fvo ->
  locate (project_key project (name fvo)) (st_self s) = None ->
  apply_materialization feature_view project start_date end_date now s
    = (Raise FeatureViewNotFoundException, s).
Proof.
  intros Hfv Hloc. unfold apply_materialization, locate in *. run.
  rewrite Hfv. run.
  destruct (dict_get _ (feature_views (st_self s))); [discriminate|].
  now rewrite Hloc.
Qed.

Lemma apply_materialization_found (feature_view : addr) (fvo : pyobj)
    (project : string) (start_date end_date now : datetime) (s : state)
    (v : addr) (o : pyobj) (log : addr) (l : list (datetime * datetime)) :
  objs (st_heap s) !! feature_view = Some fvo ->
  locate (project_key project (name fvo)) (st_self s) = Some v ->
  objs (st_heap s) !! v = Some o ->
  materialization_intervals o = Some log ->
  lists (st_heap s) !! log = Some l ->
  apply_materialization feature_view project start_date end_date now s
    = (Ok tt,
       State (Heap (<[v := set_last_updated_timestamp now o]> (objs (st_heap s)))
                   (<[log := (l ++ [(start_date, end_date)])%list]> (lists (st_heap s)))
                   (dicts (st_heap s)))
             (st_self s)).
Proof.
  intros Hfv Hloc Ho Hlog Hl. unfold apply_materialization, locate in *. run.
  rewrite Hfv. run.
  destruct (dict_get _ (feature_views (st_self s))) as [v'|].
  - injection Hloc as ->. rewrite Ho. simpl. rewrite Hlog, Hl. simpl.
    now rewrite Ho.
  - rewrite Hloc, Ho. simpl. rewrite Hlog, Hl. simpl. now rewrite Ho.
Qed.

(** C7, counterexample: the update time follows the clock, also
    backwards.  Two appends to the view [driver_hourly_stats], the
    first when the clock reads 100 and the second when it reads 50,
    succeed; the log holds both intervals in the order of the appends,
    and the update time of the stored view is 100 after the first and
    50 after the second. *)
Lemma C7_counterexample :
  let first := apply_materialization 0 "p" 5%Z 6%Z 100%Z Scenario.view_applied in
  let second := apply_materialization 0 "p" 7%Z 8%Z 50%Z (snd first) in
  fst first = Ok tt /\ fst second = Ok tt /\
  stored_log a_feature_views "p" "driver_hourly_stats" (snd second)
    = Some [(5%Z, 6%Z); (7%Z, 8%Z)] /\
  locate (project_key "p" "driver_hourly_stats") (st_self (snd second))
    = Some 0 /\
  update_time 0 (snd first) = Some 100%Z /\
  update_time 0 (snd second) = Some 50%Z /\
  (50 < 100)%Z.
Proof. repeat split; vm_compute; reflexivity. Qed.

(** C7, amended: [apply_materialization] finds the view under the key
    of [(project, name)] in the batch dictionary, else in the stream
    dictionary.  When neither holds the key it raises
    [FeatureViewNotFoundException] and the state is the one before.
    Otherwise it succeeds: the dictionaries of the registry are
    unchanged, the log of the view is the former log followed by
    [(start, end)], the update time of the view is the clock reading
    of the append, whatever it was before, its other attributes are
    kept, and no other object, list or tag dictionary is touched.  A
    further append, whatever the clock reads then, puts its interval
    after the first and makes the update time that reading: the update
    times of successive appends are ordered as the clock readings
    are. *)
Theorem C7_apply_materialization (s : state) (feature_view : addr)
    (fvo : pyobj) (project : string) (start_date end_date now : datetime) :
  objs (st_heap s) !! feature_view = Some fvo ->
  (locate (project_key project (name fvo)) (st_self s) = None ->
   apply_materialization feature_view project start_date end_date now s
     = (Raise FeatureViewNotFoundException, s)) /\
  (forall (v : addr) (o : pyobj) (log : addr) (l : list (datetime * datetime)),
     locate (project_key project (name fvo)) (st_self s) = Some v ->
     objs (st_heap s) !! v = Some o ->
     materialization_intervals o = Some log ->
     lists (st_heap s) !! log = Some l ->
     exists s1,
       apply_materialization feature_view project start_date end_date now s
         = (Ok tt, s1) /\
       st_self s1 = st_self s /\
       dicts (st_heap s1) = dicts (st_heap s) /\
       lists (st_heap s1) !! log = Some (l ++ [(start_date, end_date)])%list /\
       objs (st_heap s1) !! v
         = Some (PyObj (ob_class o) (name o) (created_timestamp o) (Some now)
                       (Some log) (tags o)) /\
       (forall x, x <> v -> objs (st_heap s1) !! x = objs (st_heap s) !! x) /\
       (forall x, x <> log -> lists (st_heap s1) !! x = lists (st_heap s) !! x) /\
       forall (start' end' now' : datetime),
         exists s2,
           apply_materialization feature_view project start' end' now' s1
             = (Ok tt, s2) /\
           lists (st_heap s2) !! log
             = Some (l ++ [(start_date, end_date); (start', end')])%list /\
           objs (st_heap s2) !! v
             = Some (PyObj (ob_class o) (name o) (created_timestamp o)
                           (Some now') (Some log) (tags o)) /\
           ((now <= now')%Z <->
            forall t1 t2,
              update_time v s1 = Some t1 -> update_time v s2 = Some t2 ->
              (t1 <= t2)%Z)).
Proof.
  intros Hfv. split.
  - intros Hloc. now apply apply_materialization_absent with fvo.
  - intros v o log l Hloc Ho Hlog Hl.
    eexists. split.
    { eapply (apply_materialization_found _ fvo); eassumption. }
    simpl. split; [reflexivity|]. split; [reflexivity|].
    split; [apply lookup_insert_eq|].
    split.
    { rewrite lookup_insert_eq. unfold set_last_updated_timestamp.
      now rewrite Hlog. }
    split; [intros x Hx; now apply lookup_insert_ne|].
    split; [intros x Hx; now apply lookup_insert_ne|].
    intros start' end' now'.
    set (o1 := set_last_updated_timestamp now o).
    set (s1 := State _ _).
    assert (Hfv1 : exists fvo1, objs (st_heap s1) !! feature_view = Some fvo1 /\
                                name fvo1 = name fvo).
    { subst s1. simpl. destruct (decide (v = feature_view)) as [->|Hne].
      - rewrite lookup_insert_eq. exists o1. split; [reflexivity|].
        subst o1. simpl. congruence.
      - rewrite lookup_insert_ne by exact Hne. eauto. }
    destruct Hfv1 as (fvo1 & Hfv1 & Hname).
    exists (State (Heap (<[v := set_last_updated_timestamp now' o1]>
                           (objs (st_heap s1)))
                        (<[log := ((l ++ [(start_date, end_date)])
                                    ++ [(start', end')])%list]>
                           (lists (st_heap s1)))
                        (dicts (st_heap s1)))
                  (st_self s1)).
    split.
    { eapply (apply_materialization_found _ fvo1 _ _ _ _ _ v o1 log).
      - exact Hfv1.
      - rewrite Hname. exact Hloc.
      - subst s1. simpl. apply lookup_insert_eq.
      - exact Hlog.
      - subst s1. simpl. apply lookup_insert_eq. }
    simpl. split.
    { rewrite lookup_insert_eq. now rewrite <- app_assoc. }
    split.
    { rewrite lookup_insert_eq. subst o1.
      unfold set_last_updated_timestamp. simpl. now rewrite Hlog. }
    unfold update_time. simpl. rewrite !lookup_insert_eq. simpl. split.
    + intros Hle t1 t2 [= <-] [= <-]. exact Hle.
    + intros H. now apply H.
Qed.

Lemma C7_witness :
  objs (st_heap Scenario.view_applied) !! 0 = Some (Scenario.stats_view 0 0) /\
  exists s1,
    apply_materialization 0 "p" 5%Z 6%Z 100%Z Scenario.view_applied
      = (Ok tt, s1) /\
    lists (st_heap s1) !! 0 = Some [(5%Z, 6%Z)] /\
    objs (st_heap s1) !! 0
      = Some (PyObj FeatureView "driver_hourly_stats" None (Some 100%Z)
                    (Some 0) (Some 0)).
Proof.
  assert (H0 : objs (st_heap Scenario.view_applied) !! 0
               = Some (Scenario.stats_view 0 0)) by (vm_compute; reflexivity).
  split; [exact H0|].
  destruct (C7_apply_materialization Scenario.view_applied 0
              (Scenario.stats_view 0 0) "p" 5%Z 6%Z 100%Z H0) as [_ Hfound].
  destruct (Hfound 0 (Scenario.stats_view 0 0) 0 [])
    as (s1 & Hrun & _ & _ & Hlog & Hobj & _); try (vm_compute; reflexivity).
  exists s1. split; [exact Hrun|]. split; [exact Hlog | exact Hobj].
Defined.

(** *** Projected keys and listing *)

(** [copy.copy] of an object of a class without [__copy__]: the
    attributes are copied to an address that was not in use. *)
Lemma copy_copy_default {VC : ViewCopy} (v : addr) (o : pyobj) (s : state) :
  objs (st_heap s) !! v = Some o ->
  copies_by_default (ob_class o) = true ->
  copy_copy v s =
    (Ok (fresh (dom (objs (st_heap s)))),
     State (Heap (<[fresh (dom (objs (st_heap s))) := o]> (objs (st_heap s)))
                 (lists (st_heap s)) (dicts (st_heap s)))
           (st_self s)).
Proof.
  intros Ho Hc. unfold copy_copy. run. rewrite Ho. simpl.
  destruct (ob_class o); try reflexivity; discriminate.
Qed.

(** [OnDemandFeatureView.__copy__] always raises. *)
Lemma copy_copy_on_demand {VC : ViewCopy} (v : addr) (o : pyobj) (s : state) :
  objs (st_heap s) !! v = Some o ->
  ob_class o = OnDemandFeatureView ->
  copy_copy v s = (Raise TypeError, s).
Proof.
  intros Ho Hc. unfold copy_copy. run. rewrite Ho. simpl. now rewrite Hc.
Qed.

Lemma fresh_lookup (h : gmap addr pyobj) : h !! fresh (dom h) = None.
Proof. apply not_elem_of_dom. apply is_fresh. Qed.







(** *** Reads return shallow copies *)


Lemma listed_agree (project : string) (registry : dict addr)
    (h1 h2 : gmap addr pyobj) :
  (forall k v, In (k, v) registry -> h1 !! v = h2 !! v) ->
  listed project registry h1 = listed project registry h2.
Proof.
  induction registry as [|[k v] rest IH]; intros Hag; [reflexivity|].
  simpl. rewrite (Hag k v (or_introl eq_refl)).
  rewrite IH; [reflexivity|]. intros k' v' Hin. apply (Hag k' v'). now right.
Qed.

(** Running [list_registry_dict] over objects that are copied by
    default, against reading the result off the heap: the run only
    adds objects, at addresses that were not in use, and the objects
    it returns are those of [listed]. *)
Lemma list_registry_dict_listed {VC : ViewCopy} (project : string)
    (registry : dict addr) (s : state) :
  (forall k v, In (k, v) registry ->
     exists o, objs (st_heap s) !! v = Some o /\
               copies_by_default (ob_class o) = true) ->
  let r := list_registry_dict project registry s in
  st_self (snd r) = st_self s /\
  (lists (st_heap (snd r)) = lists (st_heap s) /\
   dicts (st_heap (snd r)) = dicts (st_heap s)) /\
  (forall x o, objs (st_heap s) !! x = Some o ->
               objs (st_heap (snd r)) !! x = Some o) /\
  match fst r with
  | Ok cs =>
      (forall c, In c cs -> objs (st_heap s) !! c = None) /\
      exists os, listed project registry (objs (st_heap s)) = Ok os /\
                 map (fun c => objs (st_heap (snd r)) !! c) cs = map Some os
  | Raise e => listed project registry (objs (st_heap s)) = Raise e
  end.
Proof.
  revert s. induction registry as [|[k v] rest IH]; intros s Hcl.
  { simpl. repeat split; auto. intros c []. exists []. split; reflexivity. }
  assert (Hrest : forall s', (forall x o, objs (st_heap s) !! x = Some o ->
                                objs (st_heap s') !! x = Some o) ->
            forall k' v', In (k', v') rest ->
              exists o, objs (st_heap s') !! v' = Some o /\
                        copies_by_default (ob_class o) = true).
  { intros s' Hext k' v' Hin.
    destruct (Hcl k' v' (or_intror Hin)) as (o & Ho & Hc).
    exists o. split; [now apply Hext|exact Hc]. }
  cbn zeta. simpl. run.
  destruct (invert_projected_key k) as [p|e]; simpl; [|repeat split; auto].
  destruct (String.eqb p.1 project).
  2: { apply IH. apply (Hrest s). auto. }
  destruct (Hcl k v (or_introl eq_refl)) as (o & Ho & Hc). rewrite Ho. simpl.
  rewrite (copy_copy_default v o s Ho Hc). simpl.
  set (c := fresh (dom (objs (st_heap s)))).
  set (s1 := State _ _).
  assert (Hc_new : objs (st_heap s) !! c = None) by apply fresh_lookup.
  assert (Hext : forall x o', objs (st_heap s) !! x = Some o' ->
                              objs (st_heap s1) !! x = Some o').
  { intros x o' Hx. subst s1. simpl. rewrite lookup_insert_ne; [exact Hx|].
    intros <-. congruence. }
  destruct (IH s1 (Hrest s1 Hext)) as (Hself & Hlists & Hmono & Hres).
  assert (Hlisted : listed project rest (objs (st_heap s1))
                    = listed project rest (objs (st_heap s))).
  { apply listed_agree. intros k' v' Hin.
    destruct (Hcl k' v' (or_intror Hin)) as (o' & Ho' & _).
    rewrite Ho'. now apply Hext. }
  rewrite Hlisted in Hres.
  destruct (list_registry_dict project rest s1) as [[cs|e] s2]; simpl in *.
  - destruct Hres as (Hfresh & os & Hos & Hmap).
    split; [exact Hself|]. split; [exact Hlists|].
    split; [intros x o' Hx; apply Hmono, Hext, Hx|].
    split.
    + intros c' [<-|Hin]; [exact Hc_new|].
      specialize (Hfresh c' Hin). subst s1. simpl in Hfresh.
      destruct (decide (c = c')) as [<-|Hne]; [exact Hc_new|].
      now rewrite lookup_insert_ne in Hfresh.
    + exists (o :: os). rewrite Hos. split; [reflexivity|]. simpl.
      f_equal; [|exact Hmap]. apply Hmono. subst s1. simpl.
      apply lookup_insert_eq.
  - split; [exact Hself|]. split; [exact Hlists|].
    split; [intros x o' Hx; apply Hmono, Hext, Hx|].
    now rewrite Hres.
Qed.





(* ===================================================================== *)
(** ** Further properties of the keys *)
(* ===================================================================== *)




Lemma project_key_shift (p q n : string) :
  project_key (p ++ String colon q) n = project_key p (q ++ String colon n).
Proof.
  unfold project_key. induction p as [|c p IH]; [reflexivity|].
  change (String c ((p ++ String colon q) ++ String colon n)
          = String c (p ++ String colon (q ++ String colon n))).
  now rewrite IH.
Qed.

(** X2: the key does not separate project from name when they hold a
    colon: once an object named [q:n] is applied to project [p], an
    apply of an object named [n] to the project [p:q] (same kind) fails
    as a duplicate. *)
Theorem apply_in_collides_across_projects (a : attr) (obj1 obj2 : addr)
    (o1 o2 : pyobj) (p q : string) (s s1 : state) :
  objs (st_heap s) !! obj1 = Some o1 ->
  name o1 = q ++ String colon (name o2) ->
  apply_in a obj1 p s = (Ok tt, s1) ->
  objs (st_heap s1) !! obj2 = Some o2 ->
  apply_in a obj2 (p ++ String colon q) s1 = (Raise RegistryError, s1).
Proof.
  intros Ho1 Hname Happly Ho2.
  destruct (apply_in_holds_key a obj1 p s s1 Happly) as (o & Ho & Hmem).
  assert (o = o1) as -> by congruence.
  apply (apply_in_duplicate a obj2 o2); [exact Ho2|].
  now rewrite project_key_shift, <- Hname.
Qed.

(* ===================================================================== *)
(** ** Further properties of the registry *)
(* ===================================================================== *)

Section more_dictionaries.
Context {V : Type}.
Implicit Types (d : dict V) (k : string) (v : V).

Lemma dict_get_not_key d k : ~ In k (dict_keys d) -> dict_get k d = None.
Proof.
  induction d as [|[k' v'] d IH]; simpl; [reflexivity|].
  intros Hnin. destruct (String.eqb_spec k k') as [->|Hne].
  - exfalso. apply Hnin. now left.
  - apply IH. intros Hin. apply Hnin. now right.
Qed.

Lemma dict_get_del_same d k :
  NoDup (dict_keys d) -> dict_get k (dict_del k d) = None.
Proof.
  induction d as [|[k' v'] d IH]; simpl; [reflexivity|].
  intros Hnd. apply NoDup_cons in Hnd as [Hnin Hnd].
  destruct (String.eqb_spec k k') as [->|Hne].
  - apply dict_get_not_key. intros Hin. apply Hnin.
    now apply list_elem_of_In.
  - simpl. destruct (String.eqb_spec k k'); [contradiction|]. now apply IH.
Qed.

Lemma dict_get_del_other d k k' :
  k <> k' -> dict_get k' (dict_del k d) = dict_get k' d.
Proof.
  intros Hne. induction d as [|[k0 v0] d IH]; simpl; [reflexivity|].
  destruct (String.eqb_spec k k0) as [->|Hk].
  - destruct (String.eqb_spec k' k0); [congruence|reflexivity].
  - simpl. destruct (String.eqb_spec k' k0); [reflexivity|exact IH].
Qed.

Lemma dict_keys_set_fresh d k v :
  dict_get k d = None -> dict_keys (dict_set k v d) = (dict_keys d ++ [k])%list.
Proof.
  induction d as [|[k' v'] d IH]; simpl; [reflexivity|].
  destruct (String.eqb_spec k k'); [discriminate|].
  intros H. simpl. now rewrite IH.
Qed.

Lemma dict_set_fresh d k v :
  dict_get k d = None -> dict_set k v d = (d ++ [(k, v)])%list.
Proof.
  induction d as [|[k' v'] d IH]; simpl; [reflexivity|].
  destruct (String.eqb_spec k k'); [discriminate|].
  intros H. now rewrite IH.
Qed.
End more_dictionaries.

Lemma append_cancel (p x y : string) : p ++ x = p ++ y -> x = y.
Proof.
  induction p as [|c p IH]; [easy|].
  change (String c (p ++ x) = String c (p ++ y) -> x = y).
  intros [= H]. now apply IH.
Qed.


(** X3: apply followed by get.  After a successful [apply_data_source]
    (or [apply_feature_service]) of an object of a class that is copied
    by default, the get of its name in the same project returns a new
    object with the attributes of the applied one. *)
Theorem apply_in_then_get_in {VC : ViewCopy} (a : attr) (obj : addr)
    (o : pyobj) (project : string) (s s1 : state) :
  objs (st_heap s) !! obj = Some o ->
  copies_by_default (ob_class o) = true ->
  apply_in a obj project s = (Ok tt, s1) ->
  exists c s2,
    get_in a (name o) project s1 = (Ok c, s2) /\
    c <> obj /\
    objs (st_heap s2) !! c = Some o /\
    objs (st_heap s2) !! obj = Some o /\
    st_self s2 = st_self s1.
Proof.
  intros Ho Hcls Happly.
  destruct (apply_in_stores a obj project s s1 Happly) as (o0 & Ho0 & _ & Hget).
  assert (o0 = o) as -> by congruence.
  pose proof (apply_in_heap a obj project s) as Hheap.
  rewrite Happly in Hheap. simpl in Hheap.
  assert (Ho1 : objs (st_heap s1) !! obj = Some o) by now rewrite Hheap.
  unfold get_in. run. rewrite Hget.
  rewrite (copy_copy_default obj o s1 Ho1 Hcls).
  eexists _, _. split; [reflexivity|]. simpl.
  assert (Hne : fresh (dom (objs (st_heap s1))) <> obj).
  { intros Heq. pose proof (fresh_lookup (objs (st_heap s1))) as Hf.
    rewrite Heq in Hf. congruence. }
  split; [exact Hne|]. split; [apply lookup_insert_eq|].
  split; [now rewrite lookup_insert_ne|reflexivity].
Qed.

(** X4: the registry keeps the object it is given, not a copy: after a
    successful apply, whatever the caller assigns to the attributes of
    its object is what the catalog holds under the key of the apply,
    a new name included. *)
Theorem apply_in_keeps_reference (a : attr) (obj : addr) (o o' : pyobj)
    (project : string) (s s1 : state) :
  objs (st_heap s) !! obj = Some o ->
  apply_in a obj project s = (Ok tt, s1) ->
  stored a project (name o) s1 = Some o /\
  stored a project (name o) (snd (set_obj obj o' s1)) = Some o'.
Proof.
  intros Ho Happly.
  destruct (apply_in_stores a obj project s s1 Happly) as (o0 & Ho0 & _ & Hget).
  assert (o0 = o) as -> by congruence.
  pose proof (apply_in_heap a obj project s) as Hheap.
  rewrite Happly in Hheap. simpl in Hheap.
  unfold stored. run. rewrite Hget. split.
  - now rewrite Hheap.
  - apply lookup_insert_eq.
Qed.


(** *** Deleting *)

(** X6: [delete_entity], [delete_data_source], [delete_feature_service].
    A delete of a key that is not held raises [RegistryError] and
    changes nothing.  A delete of a held key removes that key only: the
    heap and the other entries stay, and a get or a second delete of
    the name raises [RegistryError]. *)
Theorem delete_in_spec {VC : ViewCopy} (a : attr) (name project : string)
    (s : state) :
  NoDup (dict_keys (sel a (st_self s))) ->
  (dict_mem (project_key project name) (sel a (st_self s)) = false ->
   delete_in a name project s = (Raise RegistryError, s)) /\
  (dict_mem (project_key project name) (sel a (st_self s)) = true ->
   exists s1,
     delete_in a name project s = (Ok tt, s1) /\
     st_heap s1 = st_heap s /\
     get_in a name project s1 = (Raise RegistryError, s1) /\
     delete_in a name project s1 = (Raise RegistryError, s1) /\
     (forall k, k <> project_key project name ->
                dict_get k (sel a (st_self s1)) = dict_get k (sel a (st_self s))) /\
     forall b, b <> a -> sel b (st_self s1) = sel b (st_self s)).
Proof.
  intros Hnd. unfold delete_in, get_in. run. split; intros Hmem; rewrite Hmem.
  - reflexivity.
  - simpl. eexists. split; [reflexivity|]. simpl. rewrite sel_upd_same.
    unfold dict_mem. rewrite (dict_get_del_same _ _ Hnd). simpl.
    repeat split.
    + intros k Hk. apply dict_get_del_other. congruence.
    + intros b Hb. apply sel_upd_other. congruence.
Qed.

Lemma delete_feature_view_loop_absent (key : string) (registries : list attr)
    (s : state) :
  (forall a, In a registries -> dict_mem key (sel a (st_self s)) = false) ->
  delete_feature_view_loop key registries s = (Raise RegistryError, s).
Proof.
  induction registries as [|r rest IH]; intros Habs; [reflexivity|].
  simpl. run. rewrite (Habs r (or_introl eq_refl)). apply IH.
  intros a Ha. apply Habs. now right.
Qed.

(** The loop stops at the first dictionary that holds the key. *)
Lemma delete_feature_view_loop_first (key : string)
    (before after : list attr) (a : attr) (s : state) :
  (forall b, In b before -> dict_mem key (sel b (st_self s)) = false) ->
  dict_mem key (sel a (st_self s)) = true ->
  delete_feature_view_loop key (before ++ a :: after) s
    = (Ok tt,
       State (st_heap s)
             (upd a (dict_del key (sel a (st_self s))) (st_self s))).
Proof.
  intros Hbefore Ha. induction before as [|r before IH]; simpl; run.
  - now rewrite Ha.
  - rewrite (Hbefore r (or_introl eq_refl)). apply IH.
    intros b Hb. apply Hbefore. now right.
Qed.

(** X7: [delete_feature_view].  When none of the four view
    dictionaries holds the key it raises [RegistryError] and changes
    nothing.  When one of them holds it, the delete succeeds: the
    first of the stream, batch, on-demand and request dictionaries
    that holds the key loses it, and the heap and the other
    dictionaries are as before. *)
Theorem delete_feature_view_spec (name project : string) (s : state) :
  ((forall a, In a fv_registries ->
      dict_mem (project_key project name) (sel a (st_self s)) = false) ->
   delete_feature_view name project s = (Raise RegistryError, s)) /\
  (forall (before after : list attr) (a : attr),
     fv_registries = (before ++ a :: after)%list ->
     (forall b, In b before ->
        dict_mem (project_key project name) (sel b (st_self s)) = false) ->
     dict_mem (project_key project name) (sel a (st_self s)) = true ->
     exists s1,
       delete_feature_view name project s = (Ok tt, s1) /\
       st_heap s1 = st_heap s /\
       sel a (st_self s1)
         = dict_del (project_key project name) (sel a (st_self s)) /\
       forall b, b <> a -> sel b (st_self s1) = sel b (st_self s)).
Proof.
  unfold delete_feature_view. split.
  - apply delete_feature_view_loop_absent.
  - intros before after a -> Hbefore Ha.
    eexists. split; [now apply delete_feature_view_loop_first|].
    simpl. split; [reflexivity|]. split; [apply sel_upd_same|].
    intros b Hb. apply sel_upd_other. congruence.
Qed.


(** *** On-demand feature views cannot be read back *)

(** A copy, whatever the class, leaves the objects that exist where
    they are. *)
Lemma copy_copy_inv {VC : ViewCopy} (v c : addr) (s s1 : state) :
  copy_copy v s = (Ok c, s1) ->
  forall x o, objs (st_heap s) !! x = Some o -> objs (st_heap s1) !! x = Some o.
Proof.
  unfold copy_copy. run.
  destruct (objs (st_heap s) !! v) as [o0|] eqn:Hv; simpl; [|discriminate].
  intros H x o Hx.
  assert (Hs1 : exists o1, objs (st_heap s1)
                  = <[fresh (dom (objs (st_heap s))) := o1]> (objs (st_heap s))).
  { destruct (ob_class o0); simpl in H; try discriminate;
      try (injection H as _ <-; eexists; reflexivity);
      destruct (view_copy o0 (st_heap s)) as [[o1|e] [ls ds]]; simpl in H;
      try discriminate; injection H as _ <-; eexists; reflexivity. }
  destruct Hs1 as [o1 Hs1].
  rewrite Hs1. rewrite lookup_insert_ne; [exact Hx|].
  intros Heq. rewrite <- Heq, fresh_lookup in Hx. discriminate.
Qed.

Lemma list_registry_dict_uncopyable {VC : ViewCopy} (project : string)
    (registry : dict addr) (s : state) (k n : string) (v : addr) (o : pyobj) :
  In (k, v) registry ->
  invert_projected_key k = Ok (project, n) ->
  objs (st_heap s) !! v = Some o ->
  ob_class o = OnDemandFeatureView ->
  exists e, fst (list_registry_dict project registry s) = Raise e.
Proof.
  revert s. induction registry as [|[k0 v0] rest IH]; intros s Hin Hk Hv Hc;
    [destruct Hin|].
  simpl. run.
  destruct (invert_projected_key k0) as [p|e] eqn:Hinv; simpl; [|eauto].
  destruct Hin as [[= -> ->]|Hin].
  - rewrite Hk in Hinv. injection Hinv as <-. simpl.
    rewrite String.eqb_refl. rewrite (copy_copy_on_demand v o s Hv Hc).
    simpl. eauto.
  - destruct (String.eqb p.1 project).
    + destruct (copy_copy v0 s) as [[c|e] s1] eqn:Hcopy; simpl; [|eauto].
      pose proof (copy_copy_inv v0 c s s1 Hcopy v o Hv) as Hv1.
      destruct (IH s1 Hin Hk Hv1 Hc) as [e He].
      destruct (list_registry_dict project rest s1) as [[cs|e'] s2];
        simpl in *; [discriminate|eauto].
    + now apply IH.
Qed.

(** X9: an on-demand feature view can be applied but not read back.
    After a successful [apply_feature_view] of one,
    [get_on_demand_feature_view] of its name raises [TypeError] (from
    [__copy__]) and changes nothing, and when project and name hold no
    colon, [list_on_demand_feature_views] of that project raises as
    well. *)
Theorem on_demand_view_cannot_be_read {VC : ViewCopy} (feature_view : addr)
    (o : pyobj) (project : string) (s s1 : state) :
  objs (st_heap s) !! feature_view = Some o ->
  ob_class o = OnDemandFeatureView ->
  apply_feature_view feature_view project s = (Ok tt, s1) ->
  get_on_demand_feature_view (name o) project s1 = (Raise TypeError, s1) /\
  (has_char colon project = false -> has_char colon (name o) = false ->
   exists e, fst (list_on_demand_feature_views project s1) = Raise e).
Proof.
  intros Ho Hc Happly.
  pose proof (apply_feature_view_heap feature_view project s) as Hheap.
  rewrite Happly in Hheap. simpl in Hheap.
  assert (Hget : dict_get (project_key project (name o))
                          (on_demand_feature_views (st_self s1))
                 = Some feature_view).
  { unfold apply_feature_view, _fv_registry in Happly. run.
    rewrite Ho in Happly. simpl in Happly. rewrite Hc in Happly.
    simpl in Happly. destruct (dict_mem _ _); [discriminate|].
    injection Happly as <-. simpl. apply dict_get_set_same. }
  assert (Ho1 : objs (st_heap s1) !! feature_view = Some o)
    by now rewrite Hheap.
  split.
  - unfold get_on_demand_feature_view, get_in. run. rewrite Hget.
    apply (copy_copy_on_demand feature_view o s1 Ho1 Hc).
  - intros Hp Hn. unfold list_on_demand_feature_views, list_in. run.
    apply (list_registry_dict_uncopyable project _ s1
             (project_key project (name o)) (name o) feature_view o);
      auto using dict_get_In.
    now apply invert_project_key_roundtrip.
Qed.

(** *** Listing *)

Lemma listed_entries (project : string) (entries : list (string * string * addr))
    (h : gmap addr pyobj) :
  (forall e, In e entries ->
     has_char colon e.1.1 = false /\ has_char colon e.1.2 = false /\
     exists o, h !! e.2 = Some o /\ copies_by_default (ob_class o) = true) ->
  exists os,
    listed project (map (fun e => (project_key e.1.1 e.1.2, e.2)) entries) h
      = Ok os /\
    map Some os
      = map (fun e => h !! e.2)
            (List.filter (fun e => String.eqb e.1.1 project) entries).
Proof.
  induction entries as [|[[p n] v] entries IH]; intros Hall.
  { exists []. split; reflexivity. }
  destruct (Hall (p, n, v) (or_introl eq_refl)) as (Hp & Hn & o & Ho & Hc).
  simpl in Hp, Hn, Ho.
  destruct IH as (os & Hos & Hmap).
  { intros e He. apply Hall. now right. }
  simpl. rewrite (invert_project_key_roundtrip p n Hp Hn). simpl.
  destruct (String.eqb p project).
  - rewrite Ho. exists (o :: os). split.
    + now rewrite Hos.
    + simpl. now rewrite Ho, Hmap.
  - exists os. split; [exact Hos|exact Hmap].
Qed.

(** X10: a list operation returns the objects of the asked project
    only, in the order in which they were applied.  For a dictionary
    whose keys come from projects and names without colon and whose
    objects are of classes that are copied by default (entities, data
    sources, feature services), the result is one new object per entry
    of the project, holding the attributes of the stored one; no entry
    of another project is among them. *)
Theorem list_in_project {VC : ViewCopy} (a : attr) (project : string)
    (s : state) (entries : list (string * string * addr)) :
  sel a (st_self s) = map (fun e => (project_key e.1.1 e.1.2, e.2)) entries ->
  (forall e, In e entries ->
     has_char colon e.1.1 = false /\ has_char colon e.1.2 = false /\
     exists o, objs (st_heap s) !! e.2 = Some o /\
               copies_by_default (ob_class o) = true) ->
  exists cs s1,
    list_in a project s = (Ok cs, s1) /\
    map (fun c => objs (st_heap s1) !! c) cs
      = map (fun e => objs (st_heap s) !! e.2)
            (List.filter (fun e => String.eqb e.1.1 project) entries) /\
    (forall c, In c cs -> objs (st_heap s) !! c = None) /\
    st_self s1 = st_self s.
Proof.
  intros Hsel Hall.
  destruct (listed_entries project entries (objs (st_heap s)) Hall)
    as (os & Hos & Hmap).
  assert (Hcl : forall k v, In (k, v) (sel a (st_self s)) ->
            exists o, objs (st_heap s) !! v = Some o /\
                      copies_by_default (ob_class o) = true).
  { intros k v Hin. rewrite Hsel in Hin. apply in_map_iff in Hin
      as (e & [= <- <-] & He).
    destruct (Hall e He) as (_ & _ & o & Ho & Hc). eauto. }
  pose proof (list_registry_dict_listed project (sel a (st_self s)) s Hcl)
    as Hrun.
  cbn zeta in Hrun. unfold list_in. run.
  destruct (list_registry_dict project (sel a (st_self s)) s)
    as [[cs|e] s1]; simpl in Hrun.
  - destruct Hrun as (Hself & _ & _ & Hfresh & os' & Hos' & Hmap').
    exists cs, s1. split; [reflexivity|].
    rewrite Hsel in Hos'. rewrite Hos in Hos'. injection Hos' as <-.
    split; [now rewrite Hmap', Hmap|]. split; [exact Hfresh|exact Hself].
  - destruct Hrun as (_ & _ & _ & Hbad). rewrite Hsel in Hbad. congruence.
Qed.

(** *** The timestamps of an entity *)

Lemma apply_entity_fresh_state (is_valid : pyobj -> result unit)
    (entity : addr) (e : pyobj) (project : string) (now : datetime)
    (s : state) :
  objs (st_heap s) !! entity = Some e ->
  is_valid e = Ok tt ->
  dict_mem (project_key project (name e)) (entities (st_self s)) = false ->
  apply_entity is_valid entity project now s =
    (Ok tt,
     State (Heap (<[entity :=
                      PyObj (ob_class e) (name e)
                            (Some (default now (created_timestamp e)))
                            (Some now) (materialization_intervals e) (tags e)]>
                    (objs (st_heap s)))
                 (lists (st_heap s)) (dicts (st_heap s)))
           (upd a_entities
                (dict_set (project_key project (name e)) entity
                          (entities (st_self s)))
                (st_self s))).
Proof.
  intros He Hv Hk. unfold apply_entity. run. rewrite He. simpl.
  rewrite Hv. simpl.
  destruct (created_timestamp e) as [t|] eqn:Hc; simpl.
  - rewrite He. simpl. rewrite lookup_insert_eq. simpl. rewrite Hk.
    unfold set_last_updated_timestamp. simpl. rewrite Hc.
    now rewrite ?insert_insert_eq.
  - repeat (rewrite lookup_insert_eq; simpl). rewrite Hk.
    unfold set_last_updated_timestamp, set_created_timestamp. simpl.
    now rewrite ?insert_insert_eq.
Qed.

Lemma dict_del_set_fresh {V : Type} (d : dict V) (k : string) (v : V) :
  dict_get k d = None -> dict_del k (dict_set k v d) = d.
Proof.
  induction d as [|[k' v'] d IH]; simpl.
  - now rewrite String.eqb_refl.
  - destruct (String.eqb_spec k k'); [discriminate|]. intros H. simpl.
    destruct (String.eqb_spec k k'); [contradiction|]. now rewrite IH.
Qed.

(** X11: the creation time of an entity is written once.  An entity
    without creation time, applied when the clock reads [t1], deleted,
    and applied again when the clock reads [t2], is stored with
    creation time [t1] and update time [t2], and [get_entity] returns
    a new object with these times. *)
Theorem entity_created_once {VC : ViewCopy}
    (is_valid : pyobj -> result unit)
    (entity : addr) (e : pyobj) (project : string) (t1 t2 : datetime)
    (s : state) :
  objs (st_heap s) !! entity = Some e ->
  ob_class e = Entity ->
  created_timestamp e = None ->
  (forall o, name o = name e -> is_valid o = Ok tt) ->
  dict_mem (project_key project (name e)) (entities (st_self s)) = false ->
  exists s1 s2 s3 c s4,
    apply_entity is_valid entity project t1 s = (Ok tt, s1) /\
    delete_entity (name e) project s1 = (Ok tt, s2) /\
    apply_entity is_valid entity project t2 s2 = (Ok tt, s3) /\
    stored a_entities project (name e) s3
      = Some (PyObj Entity (name e) (Some t1) (Some t2)
                    (materialization_intervals e) (tags e)) /\
    get_entity (name e) project s3 = (Ok c, s4) /\
    c <> entity /\
    objs (st_heap s4) !! c
      = Some (PyObj Entity (name e) (Some t1) (Some t2)
                    (materialization_intervals e) (tags e)).
Proof.
  intros He Hcls Hcr Hvalid Hk.
  assert (Hnone : dict_get (project_key project (name e)) (entities (st_self s))
                  = None).
  { unfold dict_mem in Hk. now destruct (dict_get _ _). }
  rewrite (apply_entity_fresh_state is_valid entity e project t1 s He
             (Hvalid e eq_refl) Hk).
  rewrite Hcr, Hcls. simpl.
  set (e1 := PyObj Entity (name e) (Some t1) (Some t1)
                   (materialization_intervals e) (tags e)).
  eexists. eexists. eexists. eexists. eexists.
  split; [reflexivity|].
  unfold delete_entity, delete_in. run.
  unfold dict_mem at 1. rewrite dict_get_set_same. simpl.
  rewrite (dict_del_set_fresh _ _ _ Hnone).
  split; [reflexivity|].
  set (s2 := State _ _).
  assert (He1 : objs (st_heap s2) !! entity = Some e1)
    by (subst s2; simpl; apply lookup_insert_eq).
  assert (Hk2 : dict_mem (project_key project (name e1)) (entities (st_self s2))
                = false).
  { subst s2 e1. simpl. now destruct (st_self s). }
  rewrite (apply_entity_fresh_state is_valid entity e1 project t2 s2 He1
             (Hvalid e1 eq_refl) Hk2).
  split; [reflexivity|].
  unfold stored. simpl. rewrite dict_get_set_same, lookup_insert_eq.
  split; [reflexivity|].
  unfold get_entity, get_in. run. rewrite dict_get_set_same.
  match goal with
  | |- copy_copy entity ?st = _ /\ _ =>
      rewrite (copy_copy_default entity
                 (PyObj Entity (name e) (Some t1) (Some t2)
                        (materialization_intervals e) (tags e)) st)
  end.
  - split; [reflexivity|]. simpl. split.
    + intros Heq.
      match type of Heq with
      | fresh (dom ?h) = _ => pose proof (fresh_lookup h) as Hf
      end.
      rewrite Heq, lookup_insert_eq in Hf. discriminate.
    + apply lookup_insert_eq.
  - simpl. apply lookup_insert_eq.
  - reflexivity.
Qed.

(* ===================================================================== *)
(** ** Further properties of the transformation engine *)
(* ===================================================================== *)

Section more_engine.
Import OnDemand.
Import Scenario.

Lemma fold_left_invariant {A B : Type} (I : A -> Prop) (f : A -> B -> A)
    (l : list B) (a : A) :
  I a -> (forall a x, In x l -> I a -> I (f a x)) -> I (fold_left f l a).
Proof.
  revert a. induction l as [|x l IH]; intros a Ha Hstep; [exact Ha|].
  simpl. apply IH.
  - apply Hstep; [now left|exact Ha].
  - intros a' x' Hin. apply Hstep. now right.
Qed.

Lemma dict_mem_set_iff {V : Type} (d : dict V) (k k' : string) (v : V) :
  dict_mem k' (dict_set k v d) = true <-> k' = k \/ dict_mem k' d = true.
Proof.
  split; [apply dict_mem_set|].
  unfold dict_mem. intros [->|H].
  - now rewrite dict_get_set_same.
  - destruct (String.eqb_spec k k') as [->|Hne].
    + now rewrite dict_get_set_same.
    + now rewrite dict_get_set_other.
Qed.

(** *** The duplication step *)



(** *** The names of the returned columns *)

Lemma mem_In (n : string) (l : list string) : mem n l = true <-> In n l.
Proof.
  unfold mem. rewrite existsb_exists. split.
  - intros (x & Hx & Heq). apply String.eqb_eq in Heq. now subst.
  - intros H. exists n. split; [exact H|apply String.eqb_refl].
Qed.

Lemma rename_full_lookup (self : OnDemandFeatureView) (cols : list string)
    (feats : list Field.t) (acc : dict string) (n : string) :
  mem n cols = true ->
  dict_get n (fold_left (rename_step self true cols) feats acc)
    = if mem n (map Field.name feats)
      then Some (_get_projected_feature_name self n)
      else dict_get n acc.
Proof.
  intros Hn. revert acc. induction feats as [|f feats IH]; intros acc;
    [reflexivity|].
  simpl. rewrite IH. unfold mem at 2. simpl. fold (mem n (map Field.name feats)).
  destruct (mem n (map Field.name feats)).
  - now rewrite orb_true_r.
  - rewrite orb_false_r. unfold rename_step.
    destruct (String.eqb_spec n (Field.name f)) as [->|Hne].
    + rewrite Hn. simpl. apply dict_get_set_same.
    + destruct (mem (Field.name f) cols); simpl; [|reflexivity].
      apply dict_get_set_other. congruence.
Qed.

Lemma rename_short_lookup (self : OnDemandFeatureView) (cols : list string)
    (feats : list Field.t) (acc : dict string) (n : string) :
  dict_get n (fold_left (rename_step self false cols) feats acc)
    = match find (fun f => String.eqb
                             (_get_projected_feature_name self (Field.name f)) n)
                 feats with
      | Some f => Some (Field.name f)
      | None => dict_get n acc
      end.
Proof.
  revert acc. induction feats as [|f feats IH]; intros acc; [reflexivity|].
  simpl. rewrite IH.
  assert (Hstep : rename_step self false cols acc f
                  = dict_set (_get_projected_feature_name self (Field.name f))
                             (Field.name f) acc).
  { unfold rename_step. now rewrite andb_false_r. }
  rewrite Hstep.
  destruct (String.eqb_spec (_get_projected_feature_name self (Field.name f)) n)
    as [Heq|Hne].
  - destruct (find _ feats) as [g|] eqn:Hfind.
    + apply find_some in Hfind as [_ Hg]. apply String.eqb_eq in Hg.
      rewrite <- Heq in Hg. unfold _get_projected_feature_name in Hg.
      apply append_cancel in Hg. apply (append_cancel "__") in Hg.
      now rewrite Hg.
    + rewrite <- Heq. apply dict_get_set_same.
  - destruct (find _ feats); [reflexivity|]. now apply dict_get_set_other.
Qed.

(** X13: what tabular mode returns.  When the transformation returns
    the frame [out], the result is [out] with its columns in the same
    order and with the same values, each under its reported name: with
    [full_feature_names] a column labelled with the name of a declared
    feature gets the prefix of the view, without it a column labelled
    with the qualified name of a declared feature gets the short name,
    and every other label is kept. *)
Theorem df_reports_renamed_output (self : OnDemandFeatureView)
    (df out : dataframe) (full_feature_names : bool) :
  FunctionType.call_df (udf self)
    (from_dict (df_duplicate_all self (to_dict df)).1) = Ok out ->
  _get_transformed_features_df self df full_feature_names
    = Ok (combine (map (reported_name self full_feature_names) (columns out))
                  (map snd out)).
Proof.
  intros Hout. unfold _get_transformed_features_df. cbv zeta.
  rewrite Hout. simpl. unfold set_columns. do 2 f_equal.
  apply map_ext_in. intros n Hn. unfold reported_name.
  destruct full_feature_names.
  - rewrite rename_full_lookup by now apply mem_In.
    now destruct (mem n (map Field.name (features self))).
  - rewrite rename_short_lookup. now destruct (find _ (features self)).
Qed.

Lemma df_reports_renamed_output_witness :
  _get_transformed_features_df (doubled double_in_place) upstream_only true
    = Ok [("driver_hourly_stats__conv_rate", [PyInt 1; PyInt 10]);
          ("conv_rate", [PyInt 1; PyInt 10]);
          ("doubled__output", [PyInt 2; PyInt 20])].
Proof.
  rewrite (df_reports_renamed_output (doubled double_in_place) upstream_only
             [("driver_hourly_stats__conv_rate", [PyInt 1; PyInt 10]);
              ("conv_rate", [PyInt 1; PyInt 10]);
              ("output", [PyInt 2; PyInt 20])] true).
  - vm_compute. reflexivity.
  - vm_compute. reflexivity.
Defined.

(** *** The shape of the result of row mode *)

Lemma fold_result_invariant {A B : Type} (I : A -> Prop)
    (f : result A -> B -> result A) (l : list B) (a a' : A) :
  (forall e x, f (Raise e) x = Raise e) ->
  (forall a x a2, In x l -> I a -> f (Ok a) x = Ok a2 -> I a2) ->
  I a -> fold_left f l (Ok a) = Ok a' -> I a'.
Proof.
  intros Hraise. revert a. induction l as [|x l IH]; intros a Hstep Ha; simpl.
  - now intros [= <-].
  - destruct (f (Ok a) x) as [a2|e] eqn:Hf.
    + apply IH.
      * intros a0 x0 a3 Hin. apply Hstep. now right.
      * apply (Hstep a x a2); auto. now left.
    + rewrite fold_left_raise by (intros; apply Hraise). discriminate.
Qed.

Lemma make_rows_length (keys : list string) (name_map : dict string)
    (zipped : list (list pyval)) (rows : list row) :
  make_rows keys name_map zipped = Ok rows -> length rows = length zipped.
Proof.
  revert rows. induction zipped as [|values rest IH]; intros rows; simpl.
  - now intros [= <-].
  - destruct (make_row keys name_map values); simpl; [|discriminate].
    destruct (make_rows keys name_map rest) as [rs|]; simpl; [|discriminate].
    intros [= <-]. simpl. now rewrite (IH rs eq_refl).
Qed.

Lemma output_step_shape (self : OnDemandFeatureView) (full_feature_names : bool)
    (n : nat) (feats : list Field.t) (acc : feature_columns * dict string) :
  (forall k col, dict_get k acc.1 = Some col -> length col = n) ->
  let r := fold_left (output_step self full_feature_names n) feats acc in
  (forall k, dict_mem k r.1 = true <->
     dict_mem k acc.1 = true \/
     exists f, In f feats /\
       k = if full_feature_names
           then _get_projected_feature_name self (Field.name f)
           else Field.name f) /\
  (forall k col, dict_get k r.1 = Some col -> length col = n).
Proof.
  revert acc. induction feats as [|f feats IH]; intros acc Hlen; simpl.
  - split; [|exact Hlen]. intros k. split; [now left|].
    intros [H|(f & [] & _)]. exact H.
  - set (acc' := output_step self full_feature_names n acc f).
    assert (Hlen' : forall k col, dict_get k acc'.1 = Some col -> length col = n).
    { intros k col. subst acc'. unfold output_step. simpl.
      match goal with
      | |- dict_get k (dict_set ?c _ _) = _ -> _ =>
          destruct (String.eqb_spec c k) as [->|Hne]
      end.
      - rewrite dict_get_set_same. intros [= <-]. apply repeat_length.
      - rewrite dict_get_set_other by exact Hne. apply Hlen. }
    destruct (IH acc' Hlen') as [Hkeys Hlens]. split; [|exact Hlens].
    intros k. rewrite Hkeys. subst acc'. unfold output_step at 1. simpl.
    rewrite dict_mem_set_iff. split.
    + intros [[->|H]|(g & Hg & ->)].
      * right. exists f. split; [now left|reflexivity].
      * now left.
      * right. exists g. split; [now right|reflexivity].
    + intros [H|(g & [<-|Hg] & ->)].
      * left. now right.
      * left. now left.
      * right. exists g. split; [exact Hg|reflexivity].
Qed.

Lemma fill_row_shape (self : OnDemandFeatureView) (full_feature_names : bool)
    (n : nat) (aliases : dict string) (ir : nat * row)
    (d d' : feature_columns) :
  output_shape self full_feature_names n d ->
  fill_row self aliases (Ok d) ir = Ok d' ->
  output_shape self full_feature_names n d'.
Proof.
  intros Hd. unfold fill_row. simpl.
  destruct (FunctionType.call_row (udf self) ir.2) as [row_output|];
    simpl; [|discriminate].
  apply (fold_result_invariant (output_shape self full_feature_names n));
    [reflexivity| |exact Hd].
  intros a x a2 _ (Hkeys & Hlens). simpl.
  destruct (pick row_output aliases x); simpl; [|discriminate].
  unfold dict_item. destruct (dict_get x a) as [col|] eqn:Hx; simpl;
    [|discriminate].
  intros [= <-]. split.
  - intros k. rewrite dict_mem_set_iff, <- Hkeys. split; [|now right].
    intros [->|H]; [|exact H]. unfold dict_mem. now rewrite Hx.
  - intros k col'. destruct (String.eqb_spec x k) as [->|Hne].
    + rewrite dict_get_set_same. intros [= <-]. rewrite length_insert.
      now apply (Hlens k).
    + rewrite dict_get_set_other by exact Hne. apply Hlens.
Qed.

Lemma row_mode_shape (self : OnDemandFeatureView) (feature_dict out : feature_columns)
    (full_feature_names : bool) :
  _get_transformed_features_dict self feature_dict full_feature_names = Ok out ->
  output_shape self full_feature_names
    (length (zip_star (dict_values feature_dict))) out.
Proof.
  unfold _get_transformed_features_dict.
  destruct (build_name_map self feature_dict) as [name_map|]; simpl;
    [|discriminate].
  destruct (make_rows _ name_map _) as [rows|] eqn:Hrows; simpl; [|discriminate].
  rewrite <- (make_rows_length _ _ _ _ Hrows).
  apply fold_result_invariant.
  - reflexivity.
  - intros a x a2 _. apply fill_row_shape.
  - destruct (output_step_shape self full_feature_names (length rows)
                (features self) ([], [])) as [Hkeys Hlens].
    { intros k col [=]. }
    split; [|exact Hlens]. intros k. rewrite Hkeys. split.
    + intros [H|H]; [discriminate|exact H].
    + now right.
Qed.

(** X14: what row mode returns when it returns.  The result has one
    entry for each declared feature, under the qualified name with
    [full_feature_names] and under the short name without, and no
    other entry; every entry has one value for each row of the input
    (the rows that [zip] makes of the columns). *)
Theorem row_mode_returns_declared_features (self : OnDemandFeatureView)
    (feature_dict out : feature_columns) (full_feature_names : bool) :
  _get_transformed_features_dict self feature_dict full_feature_names = Ok out ->
  (forall k, dict_mem k out = true <->
     exists f, In f (features self) /\
       k = if full_feature_names
           then _get_projected_feature_name self (Field.name f)
           else Field.name f) /\
  (forall k col, dict_get k out = Some col ->
                 length col = length (zip_star (dict_values feature_dict))).
Proof. apply row_mode_shape. Qed.

Lemma row_mode_returns_declared_features_witness :
  dict_mem "doubled__output" [("doubled__output", [PyInt 2; PyInt 20])] = true <->
  exists f, In f (features (doubled (rowwise double))) /\
            "doubled__output"
            = _get_projected_feature_name (doubled (rowwise double))
                (Field.name f).
Proof.
  apply (row_mode_returns_declared_features (doubled (rowwise double))
           upstream_only [("doubled__output", [PyInt 2; PyInt 20])] true).
  vm_compute. reflexivity.
Defined.

Lemma build_name_map_empty (self : OnDemandFeatureView) :
  build_name_map self [] = Ok [].
Proof.
  unfold build_name_map.
  apply (fold_left_invariant (fun acc => acc = Ok [])); [reflexivity|].
  intros acc p _ ->.
  apply (fold_left_invariant (fun acc => acc = Ok [])); [reflexivity|].
  now intros acc f _ ->.
Qed.

(** X15: row mode on an input without columns.  The call succeeds
    without running the transformation, and the result has an empty
    list for every declared feature. *)
Theorem row_mode_empty_input (self : OnDemandFeatureView)
    (full_feature_names : bool) :
  exists out,
    _get_transformed_features_dict self [] full_feature_names = Ok out /\
    (forall f, In f (features self) ->
       dict_get (if full_feature_names
                 then _get_projected_feature_name self (Field.name f)
                 else Field.name f) out = Some []) /\
    forall (udf' : FunctionType.t),
      _get_transformed_features_dict
        (mk (name self) (features self) (source_feature_view_projections self)
            (source_request_sources self) udf' (udf_string self) (mode self)
            (projection self)) [] full_feature_names = Ok out.
Proof.
  assert (Hrun : forall u,
    _get_transformed_features_dict
      (mk (name self) (features self) (source_feature_view_projections self)
          (source_request_sources self) u (udf_string self) (mode self)
          (projection self)) [] full_feature_names
    = Ok (fold_left (output_step self full_feature_names 0) (features self)
                    ([], [])).1).
  { intros u. unfold _get_transformed_features_dict.
    rewrite build_name_map_empty. reflexivity. }
  eexists. split; [|split].
  - specialize (Hrun (udf self)). destruct self. exact Hrun.
  - intros f Hf.
    destruct (output_step_shape self full_feature_names 0 (features self)
                ([], [])) as [Hkeys Hlens].
    { intros k col [=]. }
    cbn zeta in Hkeys, Hlens.
    set (k := if full_feature_names
              then _get_projected_feature_name self (Field.name f)
              else Field.name f).
    assert (Hmem : dict_mem k (fold_left (output_step self full_feature_names 0)
                                 (features self) ([], [])).1 = true).
    { apply Hkeys. right. exists f. split; [exact Hf|reflexivity]. }
    unfold dict_mem in Hmem.
    destruct (dict_get k _) as [col|] eqn:Hget; [|discriminate].
    apply Hlens in Hget as Hlen. destruct col; [reflexivity|discriminate].
  - exact Hrun.
Qed.

(** *** [get_requested_odfvs] *)

Lemma is_requested_iff (odfv_name : string) (feats : list Field.t)
    (feature_refs : list string) :
  is_requested odfv_name feats feature_refs = true <->
  exists f, In f feats /\
            In (odfv_name ++ ":" ++ Field.name f) feature_refs.
Proof.
  induction feats as [|f feats IH]; simpl.
  - split; [discriminate|]. intros (f & [] & _).
  - destruct (mem _ feature_refs) eqn:Hm.
    + split; [|reflexivity]. intros _. exists f. split; [now left|].
      now apply mem_In.
    + rewrite IH. split.
      * intros (g & Hg & Hin). exists g. split; [now right|exact Hin].
      * intros (g & [<-|Hg] & Hin).
        -- apply mem_In in Hin. congruence.
        -- exists g. auto.
Qed.

Lemma requested_fold (feature_refs : list string)
    (all acc : list OnDemandFeatureView) :
  fold_left
    (fun requested odfv =>
       if is_requested (name odfv) (features odfv) feature_refs
       then (requested ++ [odfv])%list
       else requested) all acc
  = (acc ++ List.filter
              (fun odfv => is_requested (name odfv) (features odfv) feature_refs)
              all)%list.
Proof.
  revert acc. induction all as [|v all IH]; intros acc; simpl.
  - now rewrite app_nil_r.
  - rewrite IH. destruct (is_requested _ _ _); [|reflexivity].
    now rewrite <- app_assoc.
Qed.

Lemma sublist_List_filter {A : Type} (f : A -> bool) (l : list A) :
  sublist (List.filter f l) l.
Proof.
  induction l as [|x l IH]; simpl; [constructor|].
  destruct (f x); now constructor.
Qed.

(** X16: [get_requested_odfvs] returns, in the order of the registry's
    listing and without adding or repeating any, exactly the views of
    the listing that have a feature [f] with [<view name>:<f>] among
    the feature references; an error of the listing is passed on. *)
Theorem get_requested_odfvs_spec (feature_refs : list string)
    (all : list OnDemandFeatureView) :
  exists requested,
    get_requested_odfvs feature_refs (Ok all) = Ok requested /\
    sublist requested all /\
    (forall v, In v requested <->
       In v all /\
       exists f, In f (features v) /\
                 In (name v ++ ":" ++ Field.name f) feature_refs) /\
    forall e, get_requested_odfvs feature_refs (Raise e) = Raise e.
Proof.
  eexists. split.
  { unfold get_requested_odfvs. simpl. rewrite requested_fold. reflexivity. }
  simpl. split; [apply sublist_List_filter|]. split; [|reflexivity].
  intros v. rewrite filter_In, is_requested_iff. reflexivity.
Qed.

(** *** Constructing a view *)


Lemma add_source_requests (sources : list source)
    (acc : dict FeatureViewProjection.t * dict RequestSource.t) (n : string) :
  dict_mem n (fold_left add_source sources acc).2 = true <->
  dict_mem n acc.2 = true \/
  exists r, In (ARequestSource r) sources /\ RequestSource.name r = n.
Proof.
  revert acc. induction sources as [|x sources IH]; intros acc; simpl.
  - split; [now left|]. intros [H|(r & [] & _)]. exact H.
  - rewrite IH. destruct x as [r|p|m p]; simpl.
    + rewrite dict_mem_set_iff. split.
      * intros [[->|H]|(r' & Hr' & Hn)]; eauto.
      * intros [H|(r' & [[= <-]|Hr'] & Hn)]; eauto.
    + split.
      * intros [H|(r' & Hr' & Hn)]; eauto.
      * intros [H|(r' & [[=]|Hr'] & Hn)]; eauto.
    + split.
      * intros [H|(r' & Hr' & Hn)]; eauto.
      * intros [H|(r' & [[=]|Hr'] & Hn)]; eauto.
Qed.

Lemma add_source_projections (sources : list source)
    (acc : dict FeatureViewProjection.t * dict RequestSource.t) (n : string) :
  dict_mem n (fold_left add_source sources acc).1 = true <->
  dict_mem n acc.1 = true \/
  (exists p, In (AFeatureViewProjection p) sources /\
             FeatureViewProjection.name p = n) \/
  (exists p, In (AFeatureView n p) sources).
Proof.
  revert acc. induction sources as [|x sources IH]; intros acc; simpl.
  - split; [now left|]. intros [H|[(p & [] & _)|(p & [])]]. exact H.
  - rewrite IH. destruct x as [r|p|m p]; simpl.
    + split.
      * intros [H|[(q & Hq & Hn)|(q & Hq)]]; eauto 6.
      * intros [H|[(q & [[=]|Hq] & Hn)|(q & [[=]|Hq])]]; eauto 6.
    + rewrite dict_mem_set_iff. split.
      * intros [[->|H]|[(q & Hq & Hn)|(q & Hq)]]; eauto 6.
      * intros [H|[(q & [[= <-]|Hq] & Hn)|(q & [[=]|Hq])]]; eauto 6.
    + rewrite dict_mem_set_iff. split.
      * intros [[->|H]|[(q & Hq & Hn)|(q & Hq)]]; eauto 6.
      * intros [H|[(q & [[=]|Hq] & Hn)|(q & [[= <- <-]|Hq])]]; eauto 6.
Qed.

Lemma add_source_last_request (post : list source) (r : RequestSource.t)
    (acc : dict FeatureViewProjection.t * dict RequestSource.t) :
  dict_get (RequestSource.name r) acc.2 = Some r ->
  (forall r', In (ARequestSource r') post ->
              RequestSource.name r' <> RequestSource.name r) ->
  dict_get (RequestSource.name r) (fold_left add_source post acc).2 = Some r.
Proof.
  revert acc. induction post as [|x post IH]; intros acc Hacc Hpost;
    [exact Hacc|].
  simpl. apply IH.
  - destruct x as [r'|p|m p]; simpl; auto.
    rewrite dict_get_set_other; [exact Hacc|].
    apply Hpost. now left.
  - intros r' Hr'. apply Hpost. now right.
Qed.

(** X18: [OnDemandFeatureView.__init__].  A mode other than [python]
    and [pandas] raises.  Otherwise the view is built with the given
    schema and mode; its request sources are keyed by the names of the
    request sources given, its projections by the names of the
    projections and of the feature views given; and of several request
    sources with one name the last one given is kept. *)
Theorem init_spec (projection : FeatureViewProjection.t) (name : string)
    (schema : list Field.t) (mode : string) (sources : list source)
    (udf : FunctionType.t) (udf_string : string) :
  (mode <> "python" -> mode <> "pandas" ->
   __init__ projection name schema (Some mode) sources udf udf_string
     = Raise Exception) /\
  (mode = "python" \/ mode = "pandas" ->
   exists v,
     __init__ projection name schema (Some mode) sources udf udf_string = Ok v /\
     features v = schema /\ OnDemand.mode v = mode /\
     (forall n, dict_mem n (source_request_sources v) = true <->
        exists r, In (ARequestSource r) sources /\ RequestSource.name r = n) /\
     (forall n, dict_mem n (source_feature_view_projections v) = true <->
        (exists p, In (AFeatureViewProjection p) sources /\
                   FeatureViewProjection.name p = n) \/
        (exists p, In (AFeatureView n p) sources)) /\
     (forall pre r post,
        sources = (pre ++ ARequestSource r :: post)%list ->
        (forall r', In (ARequestSource r') post ->
                    RequestSource.name r' <> RequestSource.name r) ->
        dict_get (RequestSource.name r) (source_request_sources v) = Some r)).
Proof.
  unfold __init__. split.
  - intros H1 H2. simpl.
    destruct (String.eqb_spec mode "python"); [contradiction|].
    destruct (String.eqb_spec mode "pandas"); [contradiction|]. reflexivity.
  - intros Hmode.
    assert (Hm : mem mode ["python"; "pandas"] = true).
    { apply mem_In. simpl. destruct Hmode; auto. }
    rewrite Hm. simpl. eexists. split; [reflexivity|]. simpl.
    split; [reflexivity|]. split; [reflexivity|]. split; [|split].
    + intros n. rewrite add_source_requests. simpl. split.
      * intros [H|H]; [discriminate|exact H].
      * now right.
    + intros n. rewrite add_source_projections. simpl. split.
      * intros [H|H]; [discriminate|exact H].
      * now right.
    + intros pre r post -> Hpost. rewrite fold_left_app. simpl.
      apply add_source_last_request; [|exact Hpost].
      simpl. apply dict_get_set_same.
Qed.

(** *** [get_request_data_schema] *)

Lemma dict_get_fold_set {V : Type} (l : list (string * V)) (d0 : dict V)
    (k : string) (t : V) :
  dict_get k (fold_left (fun d kv => dict_set kv.1 kv.2 d) l d0) = Some t ->
  dict_get k d0 = Some t \/ In (k, t) l.
Proof.
  revert d0. induction l as [|[k' v'] l IH]; intros d0; simpl; [now left|].
  intros H. destruct (IH _ H) as [H0|H0]; [|now right; right].
  destruct (String.eqb_spec k' k) as [->|Hne].
  - rewrite dict_get_set_same in H0. injection H0 as ->. right. now left.
  - rewrite dict_get_set_other in H0 by exact Hne. now left.
Qed.

Lemma dict_mem_fold_set {V : Type} (l : list (string * V)) (d0 : dict V)
    (k : string) :
  dict_mem k (fold_left (fun d kv => dict_set kv.1 kv.2 d) l d0) = true <->
  dict_mem k d0 = true \/ exists v, In (k, v) l.
Proof.
  revert d0. induction l as [|[k' v'] l IH]; intros d0; simpl.
  - split; [now left|]. intros [H|(v & [])]. exact H.
  - rewrite IH, dict_mem_set_iff. simpl. split.
    + intros [[->|H]|(v & Hv)]; eauto.
    + intros [H|(v & [[= <- <-]|Hv])]; eauto.
Qed.

Lemma field_schema_entries {T : Type} (to_value_type : Field.t -> T)
    (fields : list Field.t) (d0 : dict T) (k : string) (t : T) :
  In (k, t) (fold_left (fun new_schema field =>
                          dict_set (Field.name field) (to_value_type field)
                                   new_schema) fields d0) ->
  In (k, t) d0 \/
  exists f, In f fields /\ Field.name f = k /\ to_value_type f = t.
Proof.
  revert d0. induction fields as [|f fields IH]; intros d0; simpl; [now left|].
  intros H. destruct (IH _ H) as [H0|(g & Hg & Hk & Ht)].
  - assert (Hset : forall (d : dict T), In (k, t) (dict_set (Field.name f)
                                           (to_value_type f) d) ->
                     In (k, t) d \/ (Field.name f = k /\ to_value_type f = t)).
    { induction d as [|[k1 v1] d IHd]; simpl.
      - intros [[= <- <-]|[]]. now right.
      - destruct (String.eqb_spec (Field.name f) k1) as [->|Hne]; simpl.
        + intros [[= <- <-]|Hin]; [now right|left; now right].
        + intros [Heq|Hin]; [left; now left|].
          destruct (IHd Hin) as [H1|H1]; [left; now right|now right]. }
    destruct (Hset d0 H0) as [H1|[H1 H2]]; [now left|].
    right. exists f. split; [now left|]. split; assumption.
  - right. exists g. split; [now right|]. split; assumption.
Qed.

Lemma field_schema_keys {T : Type} (to_value_type : Field.t -> T)
    (fields : list Field.t) (d0 : dict T) (k : string) :
  dict_mem k (fold_left (fun new_schema field =>
                           dict_set (Field.name field) (to_value_type field)
                                    new_schema) fields d0) = true <->
  dict_mem k d0 = true \/ exists f, In f fields /\ Field.name f = k.
Proof.
  revert d0. induction fields as [|f fields IH]; intros d0; simpl.
  - split; [now left|]. intros [H|(f & [] & _)]. exact H.
  - rewrite IH, dict_mem_set_iff. split.
    + intros [[->|H]|(g & Hg & Hk)]; eauto.
    + intros [H|(g & [<-|Hg] & Hk)]; eauto.
Qed.

Lemma dict_mem_In {V : Type} (d : dict V) (k : string) :
  dict_mem k d = true <-> exists v, In (k, v) d.
Proof.
  rewrite dict_mem_true. split.
  - intros [v Hv]. exists v. now apply dict_get_In.
  - intros [v Hv]. induction d as [|[k' v'] d IH]; [destruct Hv|]. simpl.
    destruct (String.eqb_spec k k'); [eauto|].
    destruct Hv as [[= <- <-]|Hv]; [contradiction|]. now apply IH.
Qed.

(** X19: [get_request_data_schema] returns one entry for every field
    name declared by a request source of the view and no other; the
    value type of an entry is that of a declared field of this name. *)
Theorem get_request_data_schema_spec {T : Type} (to_value_type : Field.t -> T)
    (self : OnDemandFeatureView) :
  (forall n, dict_mem n (get_request_data_schema to_value_type self) = true <->
     exists rs f, In rs (dict_values (source_request_sources self)) /\
                  In f (RequestSource.schema rs) /\ Field.name f = n) /\
  (forall n t, dict_get n (get_request_data_schema to_value_type self) = Some t ->
     exists rs f, In rs (dict_values (source_request_sources self)) /\
                  In f (RequestSource.schema rs) /\ Field.name f = n /\
                  to_value_type f = t).
Proof.
  unfold get_request_data_schema.
  set (step := fun (schema : dict T) (request_source : RequestSource.t) =>
                 dict_update schema
                   (fold_left (fun new_schema field =>
                                 dict_set (Field.name field)
                                          (to_value_type field) new_schema)
                              (RequestSource.schema request_source) [])).
  set (sources := dict_values (source_request_sources self)).
  assert (Hkeys : forall l d0 n,
            dict_mem n (fold_left step l d0) = true <->
            dict_mem n d0 = true \/
            exists rs f, In rs l /\ In f (RequestSource.schema rs) /\
                         Field.name f = n).
  { induction l as [|rs l IH]; intros d0 n; simpl.
    - split; [now left|]. intros [H|(rs & f & [] & _)]. exact H.
    - rewrite IH. unfold step, dict_update.
      rewrite dict_mem_fold_set, <- dict_mem_In, field_schema_keys. split.
      + intros [[H|[H|(f & Hf & Hn)]]|(rs' & f & Hrs & Hf & Hn)];
          try discriminate; eauto 8.
      + intros [H|(rs' & f & [<-|Hrs] & Hf & Hn)]; eauto 8. }
  assert (Hvals : forall l d0 n t,
            dict_get n (fold_left step l d0) = Some t ->
            dict_get n d0 = Some t \/
            exists rs f, In rs l /\ In f (RequestSource.schema rs) /\
                         Field.name f = n /\ to_value_type f = t).
  { induction l as [|rs l IH]; intros d0 n t; simpl; [now left|].
    intros H. destruct (IH _ _ _ H) as [H0|(rs' & f & Hrs & Hf & Hn & Ht)].
    - unfold step, dict_update in H0. apply dict_get_fold_set in H0 as [H0|H0];
        [now left|].
      apply field_schema_entries in H0 as [[]|(f & Hf & Hn & Ht)].
      right. exists rs, f. split; [now left|]. auto.
    - right. exists rs', f. split; [now right|]. auto. }
  split.
  - intros n. rewrite Hkeys. split.
    + intros [H|H]; [discriminate|exact H].
    + now right.
  - intros n t H. apply Hvals in H as [H|H]; [discriminate|exact H].
Qed.

End more_engine.

(* ===================================================================== *)
(** ** Further properties of the MySQL registry store *)
(* ===================================================================== *)

Section more_mysql.
Import MySQL.

Lemma fold_max_bounds (l : list Z) (a : Z) :
  (a <= fold_left Z.max l a)%Z /\
  (forall x, In x l -> (x <= fold_left Z.max l a)%Z) /\
  (fold_left Z.max l a = a \/ In (fold_left Z.max l a) l).
Proof.
  revert a. induction l as [|x l IH]; intros a; simpl.
  - repeat split; [lia|intros x []|now left].
  - destruct (IH (Z.max a x)) as (H1 & H2 & H3). repeat split.
    + lia.
    + intros y [<-|Hy]; [lia|now apply H2].
    + destruct H3 as [H3|H3]; [|right; now right].
      rewrite H3. destruct (Z.max_spec a x) as [[_ ->]|[_ ->]];
        [right; now left|now left].
Qed.

(** X20: the query of [get_registry_proto].  On a missing table it
    fails with a database error, which the [except] clause covers; on
    an empty table it yields no row; otherwise it yields the registry
    of a row whose version no other row exceeds. *)
Theorem fetch_latest_spec (srv : server) :
  (table srv = None ->
   exists e, fetch_latest srv = Raise e /\ is_DatabaseError e = true) /\
  (table srv = Some [] -> fetch_latest srv = Ok None) /\
  (forall rows, table srv = Some rows -> rows <> [] ->
   exists version blob,
     fetch_latest srv = Ok (Some blob) /\
     In (version, blob) rows /\
     forall r, In r rows -> (r.1 <= version)%Z).
Proof.
  unfold fetch_latest. split; [|split].
  - intros ->. eexists. split; reflexivity.
  - now intros ->.
  - intros rows -> Hne. destruct rows as [|r0 rest]; [contradiction|].
    unfold max_version.
    set (m := fold_left Z.max (map fst rest) r0.1).
    destruct (fold_max_bounds (map fst rest) r0.1) as (H1 & H2 & H3).
    fold m in H1, H2, H3.
    assert (Hall : forall r, In r (r0 :: rest) -> (r.1 <= m)%Z).
    { intros r [<-|Hr]; [exact H1|]. apply H2. now apply in_map. }
    assert (Hex : exists r, In r (r0 :: rest) /\ r.1 = m).
    { destruct H3 as [H3|H3].
      - exists r0. split; [now left|now symmetry].
      - apply in_map_iff in H3 as (r & Hr & Hin). exists r.
        split; [now right|exact Hr]. }
    destruct (find (fun r => Z.eqb r.1 m) (r0 :: rest)) as [[v blob]|] eqn:Hfind.
    + apply find_some in Hfind as [Hin Hv]. apply Z.eqb_eq in Hv.
      simpl in Hv. subst v. exists m, blob. repeat split; auto.
    + destruct Hex as (r & Hin & Hr).
      pose proof (find_none _ _ Hfind r Hin) as Hn. simpl in Hn.
      apply Z.eqb_neq in Hn. contradiction.
Qed.

End more_mysql.

(* ===================================================================== *)
(** ** The further properties at concrete inputs *)
(* ===================================================================== *)

Lemma apply_in_collides_across_projects_witness :
  apply_in a_data_sources 1 ("a" ++ String colon "b")
           (snd (apply_in a_data_sources 0 "a" Scenario.sources_ready))
  = (Raise RegistryError,
     snd (apply_in a_data_sources 0 "a" Scenario.sources_ready)).
Proof.
  apply (apply_in_collides_across_projects a_data_sources 0 1
           (Scenario.source_named "b:c") (Scenario.source_named "c")
           "a" "b" Scenario.sources_ready);
    vm_compute; reflexivity.
Defined.

Lemma apply_in_then_get_in_witness :
  exists c s2,
    get_in (VC := Scenario.rebuilt) a_data_sources "b:c" "a"
           (snd (apply_in a_data_sources 0 "a" Scenario.sources_ready))
      = (Ok c, s2) /\
    c <> 0 /\
    objs (st_heap s2) !! c = Some (Scenario.source_named "b:c").
Proof.
  destruct (apply_in_then_get_in (VC := Scenario.rebuilt) a_data_sources 0
              (Scenario.source_named "b:c") "a" Scenario.sources_ready
              (snd (apply_in a_data_sources 0 "a" Scenario.sources_ready)))
    as (c & s2 & Hget & Hne & Hc & _);
    [vm_compute; reflexivity | reflexivity | vm_compute; reflexivity |].
  exists c, s2. auto.
Defined.

Lemma apply_in_keeps_reference_witness :
  stored a_data_sources "a" "b:c"
    (snd (set_obj 0 (Scenario.source_named "renamed")
            (snd (apply_in a_data_sources 0 "a" Scenario.sources_ready))))
  = Some (Scenario.source_named "renamed").
Proof.
  apply (apply_in_keeps_reference a_data_sources 0
           (Scenario.source_named "b:c") (Scenario.source_named "renamed")
           "a" Scenario.sources_ready);
    vm_compute; reflexivity.
Defined.


Lemma delete_in_spec_witness :
  exists s1,
    delete_entity "driver" "p" Scenario.driver_applied = (Ok tt, s1) /\
    get_entity (VC := Scenario.rebuilt) "driver" "p" s1
      = (Raise RegistryError, s1).
Proof.
  destruct (delete_in_spec (VC := Scenario.rebuilt) a_entities "driver" "p"
              Scenario.driver_applied)
    as [_ Hheld].
  { apply (bool_decide_unpack _). vm_compute. reflexivity. }
  destruct Hheld as (s1 & Hdel & _ & Hget & _); [vm_compute; reflexivity|].
  exists s1. split; [exact Hdel|exact Hget].
Defined.

Lemma delete_feature_view_spec_witness :
  exists s1,
    delete_feature_view "driver_hourly_stats" "p" Scenario.view_applied
      = (Ok tt, s1) /\
    stored a_feature_views "p" "driver_hourly_stats" Scenario.view_applied
      = Some (Scenario.stats_view 0 0) /\
    stored a_feature_views "p" "driver_hourly_stats" s1 = None.
Proof.
  destruct (delete_feature_view_spec "driver_hourly_stats" "p"
              Scenario.view_applied) as [_ Hheld].
  destruct (Hheld [a_stream_feature_views] [a_on_demand_feature_views;
                                            a_request_feature_views]
                  a_feature_views)
    as (s1 & Hdel & _ & Hsel & _).
  - reflexivity.
  - intros b [<-|[]]. vm_compute. reflexivity.
  - vm_compute. reflexivity.
  - exists s1. split; [exact Hdel|]. split; [vm_compute; reflexivity|].
    unfold stored. rewrite Hsel. vm_compute. reflexivity.
Defined.


Lemma on_demand_view_cannot_be_read_witness :
  get_on_demand_feature_view (VC := Scenario.rebuilt) "good" "p"
    (snd (apply_feature_view 0 "p" Scenario.on_demand_ready))
  = (Raise TypeError, snd (apply_feature_view 0 "p" Scenario.on_demand_ready)).
Proof.
  apply (on_demand_view_cannot_be_read (VC := Scenario.rebuilt) 0
           (PyObj OnDemandFeatureView "good" None None None None) "p"
           Scenario.on_demand_ready);
    vm_compute; reflexivity.
Defined.

Lemma list_in_project_witness :
  exists cs s1,
    list_entities (VC := Scenario.rebuilt) "p" Scenario.driver_applied
      = (Ok cs, s1) /\
    map (fun c => objs (st_heap s1) !! c) cs
      = [Some (PyObj Entity "driver" (Some 1%Z) (Some 1%Z) None None)].
Proof.
  destruct (list_in_project (VC := Scenario.rebuilt) a_entities "p"
              Scenario.driver_applied [("p", "driver", 0)])
    as (cs & s1 & Hlist & Hmap & _).
  - vm_compute. reflexivity.
  - intros e [<-|[]]. repeat split; try reflexivity.
    eexists. split; vm_compute; reflexivity.
  - exists cs, s1. split; [exact Hlist|]. rewrite Hmap. vm_compute.
    reflexivity.
Defined.

Lemma entity_created_once_witness :
  exists s1 s2 s3,
    apply_entity Scenario.valid 0 "p" 1%Z Scenario.driver_ready = (Ok tt, s1) /\
    delete_entity "driver" "p" s1 = (Ok tt, s2) /\
    apply_entity Scenario.valid 0 "p" 2%Z s2 = (Ok tt, s3) /\
    stored a_entities "p" "driver" s3
      = Some (PyObj Entity "driver" (Some 1%Z) (Some 2%Z) None None).
Proof.
  destruct (entity_created_once (VC := Scenario.rebuilt) Scenario.valid 0
              Scenario.driver "p" 1%Z 2%Z Scenario.driver_ready)
    as (s1 & s2 & s3 & _ & _ & H1 & H2 & H3 & Hst & _);
    try (vm_compute; reflexivity).
  exists s1, s2, s3. auto.
Defined.

Lemma init_spec_witness :
  exists v,
    OnDemand.__init__ Scenario.driver_hourly_stats "transformed_conv_rate"
      [OnDemand.Field.mk "output"] (Some "pandas")
      [OnDemand.ARequestSource Scenario.input_request]
      OnDemand._empty_odfv_udf_fn "def f(x): return x" = Ok v /\
    OnDemand.mode v = "pandas".
Proof.
  destruct (init_spec Scenario.driver_hourly_stats
              "transformed_conv_rate" [OnDemand.Field.mk "output"] "pandas"
              [OnDemand.ARequestSource Scenario.input_request]
              OnDemand._empty_odfv_udf_fn "def f(x): return x") as [_ H].
  destruct H as (v & Hv & _ & Hmode & _); [now right|].
  exists v. auto.
Defined.

Lemma fetch_latest_spec_witness :
  exists version blob,
    MySQL.fetch_latest Scenario.three_versions = Ok (Some blob) /\
    In (version, blob) [(1%Z, "one"); (3%Z, "three"); (2%Z, "two")] /\
    forall r, In r [(1%Z, "one"); (3%Z, "three"); (2%Z, "two")] ->
              (r.1 <= version)%Z.
Proof.
  destruct (fetch_latest_spec Scenario.three_versions) as (_ & _ & H).
  apply H; [reflexivity|discriminate].
Defined.

(** *** Views of different kinds are kept apart *)

(** X21: apply followed by get, for the views.  After a successful
    [apply_feature_view] the view is stored in the dictionary of its
    class alone: the get of that kind returns [copy.copy] of the
    applied object, which for a batch, stream or request view is a new
    object with the attributes its [__copy__] gives, or the exception
    it raises; the dictionaries of the other kinds are as before, so
    that a get of another kind does not find the view. *)
Theorem apply_feature_view_then_get {VC : ViewCopy} (feature_view : addr)
    (o : pyobj) (a : attr) (project : string) (s s1 : state) :
  objs (st_heap s) !! feature_view = Some o ->
  _fv_registry o s = (Ok a, s) ->
  apply_feature_view feature_view project s = (Ok tt, s1) ->
  get_in a (name o) project s1 = copy_copy feature_view s1 /\
  (ob_class o <> OnDemandFeatureView ->
   let r := view_copy o (st_heap s1) in
   let h := Heap (objs (st_heap s1)) r.2.1 r.2.2 in
   get_in a (name o) project s1
     = match r.1 with
       | Ok o' => (Ok (fresh (dom (objs h))),
                   State (Heap (<[fresh (dom (objs h)) := o']> (objs h))
                               (lists h) (dicts h))
                         (st_self s1))
       | Raise e => (Raise e, State h (st_self s1))
       end) /\
  (forall b, b <> a -> sel b (st_self s1) = sel b (st_self s)) /\
  (forall b, b <> a ->
     dict_mem (project_key project (name o)) (sel b (st_self s)) = false ->
     get_in b (name o) project s1 = (Raise RegistryError, s1)).
Proof.
  intros Ho Hreg Happly.
  pose proof (apply_feature_view_heap feature_view project s) as Hheap.
  rewrite Happly in Hheap. simpl in Hheap.
  assert (Hs1 : s1 = State (st_heap s)
                   (upd a (dict_set (project_key project (name o)) feature_view
                                    (sel a (st_self s))) (st_self s))).
  { unfold apply_feature_view in Happly. run. rewrite Ho in Happly.
    simpl in Happly. rewrite Hreg in Happly. simpl in Happly.
    destruct (dict_mem _ _); [discriminate|]. now injection Happly as <-. }
  assert (Hother : forall b, b <> a -> sel b (st_self s1) = sel b (st_self s)).
  { intros b Hb. rewrite Hs1. simpl. apply sel_upd_other. congruence. }
  assert (Hget : get_in a (name o) project s1 = copy_copy feature_view s1).
  { unfold get_in. run. rewrite Hs1. simpl. rewrite sel_upd_same.
    now rewrite dict_get_set_same. }
  split; [exact Hget|]. split; [|split; [exact Hother|]].
  - intros Hcls. cbn zeta. rewrite Hget. unfold copy_copy. run.
    assert (Ho1 : objs (st_heap s1) !! feature_view = Some o)
      by (rewrite Hheap; exact Ho).
    rewrite Ho1. simpl.
    unfold _fv_registry in Hreg.
    destruct (ob_class o); simpl in Hreg; try discriminate;
      try contradiction; reflexivity.
  - intros b Hb Hmem. unfold get_in. run. rewrite (Hother b Hb).
    unfold dict_mem in Hmem. now destruct (dict_get _ _).
Qed.

Lemma apply_feature_view_then_get_witness :
  (exists c s2,
     get_feature_view (VC := Scenario.rebuilt) "driver_hourly_stats" "p"
                      Scenario.view_applied
       = (Ok c, s2) /\
     objs (st_heap s2) !! c
       = Some (PyObj FeatureView "driver_hourly_stats" None None (Some 1)
                     (Some 0))) /\
  get_stream_feature_view (VC := Scenario.rebuilt) "driver_hourly_stats" "p"
                          Scenario.view_applied
    = (Raise RegistryError, Scenario.view_applied).
Proof.
  destruct (apply_feature_view_then_get (VC := Scenario.rebuilt) 0
              (Scenario.stats_view 0 0) a_feature_views "p"
              (snd ((let* log := alloc_list [] in
                     let* tags := alloc_dict [("production", "True")] in
                     alloc_obj (Scenario.stats_view log tags))
                      Scenario.fresh_registry))
              Scenario.view_applied)
    as (_ & Hget & _ & Hother);
    try (vm_compute; reflexivity).
  split.
  - assert (Hcls : ob_class (Scenario.stats_view 0 0) <> OnDemandFeatureView)
      by discriminate.
    specialize (Hget Hcls). eexists _, _. split.
    + unfold get_feature_view. etransitivity; [exact Hget|].
      vm_compute. reflexivity.
    + vm_compute. reflexivity.
  - apply (Hother a_stream_feature_views); [discriminate|].
    vm_compute. reflexivity.
Defined.

(* ===================================================================== *)
(** ** The values that row mode returns *)
(* ===================================================================== *)

Section row_mode_cells.
Import OnDemand.
Import Scenario.

Variable self : OnDemandFeatureView.
Variable full_feature_names : bool.

Local Abbreviation correct := (correct_name self full_feature_names).
Local Abbreviation alias := (alias_name self full_feature_names).

Lemma correct_determines_alias (f g : Field.t) :
  correct g = correct f -> alias g = alias f.
Proof.
  unfold correct_name, alias_name, _get_projected_feature_name.
  destruct full_feature_names.
  - intros H. apply append_cancel in H. now apply (append_cancel "__") in H.
  - now intros ->.
Qed.

Lemma alias_lookup (n : nat) (feats : list Field.t)
    (acc : feature_columns * dict string) (f : Field.t) :
  dict_get (correct f) acc.2 = Some (alias f) \/ In f feats ->
  dict_get (correct f)
           (fold_left (output_step self full_feature_names n) feats acc).2
    = Some (alias f).
Proof.
  revert acc. induction feats as [|g feats IH]; intros acc H; simpl.
  - destruct H as [H|[]]. exact H.
  - apply IH.
    assert (Hstep : (output_step self full_feature_names n acc g).2
                    = dict_set (correct g) (alias g) acc.2) by reflexivity.
    rewrite Hstep.
    destruct (String.eqb_spec (correct g) (correct f)) as [Heq|Hne].
    + left. rewrite Heq, dict_get_set_same.
      now rewrite (correct_determines_alias f g Heq).
    + destruct H as [H|[<-|H]].
      * left. now rewrite dict_get_set_other.
      * contradiction.
      * now right.
Qed.

Variable rows : list row.
Variable aliases : dict string.

Local Abbreviation cell := (OnDemand.cell self rows aliases).
Local Abbreviation filled := (OnDemand.filled self rows aliases).

Lemma fill_row_keys (m : nat) (r : row) (row_output : row)
    (keys : list string) (a a' : feature_columns) :
  rows !! m = Some r ->
  FunctionType.call_row (udf self) r = Ok row_output ->
  fold_left
    (fun acc feature =>
       let+ output_dict := acc in
       let+ v := pick row_output aliases feature in
       let+ col := dict_item feature output_dict in
       Ok (dict_set feature (<[m := v]> col) output_dict))
    keys (Ok a) = Ok a' ->
  filled m a ->
  filled m a' /\
  (forall k, dict_mem k a' = dict_mem k a) /\
  (forall k col', dict_get k a' = Some col' ->
     In k keys \/
     (exists col, dict_get k a = Some col /\
                  exists v, col !! m = Some v /\ cell k m v) ->
     exists v, col' !! m = Some v /\ cell k m v).
Proof.
  intros Hr Hro. revert a. induction keys as [|x keys IH]; intros a; simpl.
  - intros [= <-] Ha. split; [exact Ha|]. split; [reflexivity|].
    intros k col' Hk [[]|(col & Hcol & Hgood)].
    rewrite Hk in Hcol. injection Hcol as <-. exact Hgood.
  - destruct (pick row_output aliases x) as [v|] eqn:Hpick; simpl.
    2: { rewrite fold_left_raise by reflexivity. discriminate. }
    unfold dict_item.
    destruct (dict_get x a) as [col|] eqn:Hx; simpl.
    2: { rewrite fold_left_raise by reflexivity. discriminate. }
    intros Hfold Ha.
    assert (Hm : m < length rows) by (apply lookup_lt_Some in Hr; exact Hr).
    destruct (Ha x col Hx) as [Hlen Hearlier].
    set (a1 := dict_set x (<[m := v]> col) a) in *.
    assert (Ha1 : filled m a1).
    { intros k c Hk. subst a1. destruct (String.eqb_spec x k) as [->|Hne].
      - rewrite dict_get_set_same in Hk. injection Hk as <-.
        rewrite length_insert. split; [exact Hlen|].
        intros i Hi. rewrite list_lookup_insert_ne by lia. now apply Hearlier.
      - rewrite dict_get_set_other in Hk by exact Hne. now apply Ha. }
    destruct (IH a1 Hfold Ha1) as (Hfilled & Hkeys & Hgood).
    split; [exact Hfilled|]. split.
    + intros k. rewrite Hkeys. subst a1. unfold dict_mem.
      destruct (String.eqb_spec x k) as [->|Hne].
      * now rewrite dict_get_set_same, Hx.
      * now rewrite dict_get_set_other.
    + intros k col' Hk Hwhy. apply (Hgood k col' Hk).
      destruct (String.eqb_spec x k) as [->|Hne].
      * right. exists (<[m := v]> col). subst a1.
        rewrite dict_get_set_same. split; [reflexivity|].
        exists v. split; [apply list_lookup_insert_eq; lia|].
        exists r, row_output. auto.
      * destruct Hwhy as [[Heq|Hin]|(c & Hc & Hg)]; [contradiction|now left|].
        right. exists c. subst a1. rewrite dict_get_set_other by exact Hne.
        auto.
Qed.

Lemma fill_row_filled (m : nat) (r : row) (d d' : feature_columns) :
  rows !! m = Some r ->
  filled m d ->
  fill_row self aliases (Ok d) (m, r) = Ok d' ->
  filled (S m) d'.
Proof.
  intros Hr Hd. unfold fill_row. simpl.
  destruct (FunctionType.call_row (udf self) r) as [row_output|] eqn:Hro;
    simpl; [|discriminate].
  intros Hfold.
  destruct (fill_row_keys m r row_output (dict_keys d) d d' Hr Hro Hfold Hd)
    as (Hfilled & Hkeys & Hgood).
  intros k col' Hk. destruct (Hfilled k col' Hk) as [Hlen Hearlier].
  split; [exact Hlen|]. intros i Hi.
  destruct (decide (i = m)) as [->|Hne]; [|apply Hearlier; lia].
  apply (Hgood k col' Hk). left.
  assert (Hmem : dict_mem k d = true)
    by (rewrite <- Hkeys; unfold dict_mem; now rewrite Hk).
  apply dict_mem_true in Hmem as [c Hc]. apply dict_get_In in Hc.
  unfold dict_keys. now apply (in_map fst) in Hc.
Qed.

Lemma fill_rows_filled (rest done : list row) (d d' : feature_columns) :
  rows = (done ++ rest)%list ->
  filled (length done) d ->
  fold_left (fill_row self aliases)
            (combine (seq (length done) (length rest)) rest) (Ok d) = Ok d' ->
  filled (length rows) d'.
Proof.
  revert done d. induction rest as [|r rest IH]; intros done d Hrows Hd;
    cbn [length seq combine fold_left].
  - intros [= <-].
    replace (length rows) with (length done)
      by (rewrite Hrows, app_nil_r; reflexivity).
    exact Hd.
  - destruct (fill_row self aliases (Ok d) (length done, r)) as [d1|] eqn:Hfill.
    2: { rewrite fold_left_raise by reflexivity. discriminate. }
    intros Hfold.
    assert (Hr : rows !! length done = Some r).
    { rewrite Hrows. rewrite lookup_app_r by lia.
      now rewrite Nat.sub_diag. }
    pose proof (fill_row_filled _ r d d1 Hr Hd Hfill) as Hd1.
    apply (IH (done ++ [r])%list d1).
    + now rewrite <- app_assoc.
    + rewrite length_app. simpl. now rewrite Nat.add_1_r.
    + rewrite length_app. simpl. now rewrite Nat.add_1_r.
Qed.

End row_mode_cells.

Section row_mode_result.
Import OnDemand.
Import Scenario.

(** X22: the values row mode returns when it returns.  Row [i] of the
    column of a declared feature holds what the transformation gave for
    row [i] of the input under the feature's reported name, and what it
    gave under the feature's other name when the reported name is
    missing from the row's output; the transformation's output for that
    row has an entry under the other name (the default of [get] is
    looked up first). *)
Theorem row_mode_values (self : OnDemandFeatureView)
    (feature_dict out : feature_columns) (full_feature_names : bool)
    (name_map : dict string) (rows : list row)
    (f : Field.t) (i : nat) (r : row) :
  build_name_map self feature_dict = Ok name_map ->
  make_rows (dict_keys feature_dict) name_map
            (zip_star (dict_values feature_dict)) = Ok rows ->
  _get_transformed_features_dict self feature_dict full_feature_names = Ok out ->
  In f (features self) ->
  rows !! i = Some r ->
  let long_name := _get_projected_feature_name self (Field.name f) in
  let correct_name := if full_feature_names then long_name else Field.name f in
  let alias := if full_feature_names then Field.name f else long_name in
  exists row_output default col,
    FunctionType.call_row (udf self) r = Ok row_output /\
    dict_get alias row_output = Some default /\
    dict_get correct_name out = Some col /\
    col !! i = Some (match dict_get correct_name row_output with
                     | Some v => v
                     | None => default
                     end).
Proof.
  intros Hmap Hrows Hout Hf Hi long_name correct_name alias.
  pose proof (row_mode_shape self feature_dict out full_feature_names Hout)
    as [Hkeys _].
  unfold _get_transformed_features_dict in Hout.
  rewrite Hmap in Hout. simpl in Hout. rewrite Hrows in Hout. simpl in Hout.
  set (prepared := fold_left (output_step self full_feature_names (length rows))
                             (features self) ([], [])) in Hout.
  assert (Hfilled :
    forall k col, dict_get k out = Some col ->
      length col = length rows /\
      forall j, j < length rows -> exists v, col !! j = Some v /\
        exists r' row_output,
          rows !! j = Some r' /\
          FunctionType.call_row (udf self) r' = Ok row_output /\
          pick row_output prepared.2 k = Ok v).
  { apply (fill_rows_filled self rows prepared.2 rows [] prepared.1 out).
    - reflexivity.
    - intros k col Hk. split; [|intros j Hj; simpl in Hj; lia].
      destruct (output_step_shape self full_feature_names (length rows)
                  (features self) ([], [])) as [_ Hlens].
      { intros k' col' [=]. }
      now apply (Hlens k).
    - exact Hout. }
  assert (Hmem : dict_mem correct_name out = true).
  { apply Hkeys. exists f. split; [exact Hf|reflexivity]. }
  apply dict_mem_true in Hmem as [col Hcol].
  destruct (Hfilled _ _ Hcol) as [_ Hcells].
  destruct (Hcells i) as (v & Hv & r' & row_output & Hr' & Hro & Hpick).
  { apply lookup_lt_Some in Hi. exact Hi. }
  rewrite Hi in Hr'. injection Hr' as <-.
  unfold pick, dict_item in Hpick.
  assert (Halias : dict_get correct_name prepared.2 = Some alias).
  { apply (alias_lookup self full_feature_names (length rows)
             (features self) ([], []) f). now right. }
  rewrite Halias in Hpick. simpl in Hpick.
  destruct (dict_get alias row_output) as [default|] eqn:Hdefault;
    simpl in Hpick; [|discriminate].
  injection Hpick as <-.
  exists row_output, default, col. auto.
Qed.

Lemma row_mode_values_witness :
  exists row_output default col,
    FunctionType.call_row (udf (doubled (rowwise double)))
                          [("driver_hourly_stats__conv_rate", PyInt 10);
                           ("conv_rate", PyInt 10)] = Ok row_output /\
    dict_get "output" row_output = Some default /\
    dict_get "doubled__output" [("doubled__output", [PyInt 2; PyInt 20])]
      = Some col /\
    col !! 1 = Some (match dict_get "doubled__output" row_output with
                     | Some v => v
                     | None => default
                     end).
Proof.
  apply (row_mode_values (doubled (rowwise double)) upstream_only
           [("doubled__output", [PyInt 2; PyInt 20])] true
           [("driver_hourly_stats__conv_rate", "conv_rate")]
           [[("driver_hourly_stats__conv_rate", PyInt 1);
             ("conv_rate", PyInt 1)];
            [("driver_hourly_stats__conv_rate", PyInt 10);
             ("conv_rate", PyInt 10)]]
           (Field.mk "output") 1
           [("driver_hourly_stats__conv_rate", PyInt 10);
            ("conv_rate", PyInt 10)]).
  - vm_compute. reflexivity.
  - vm_compute. reflexivity.
  - vm_compute. reflexivity.
  - simpl. auto.
  - reflexivity.
Defined.

End row_mode_result.

(* ===================================================================== *)
(** ** Saved datasets *)
(* ===================================================================== *)

(** X23: a saved dataset that was applied stays.  After a successful
    [apply_saved_dataset], [delete_saved_dataset] of that name returns
    and changes nothing, [get_saved_dataset] returns [None], and a
    further [apply_saved_dataset] of any object of that name in that
    project raises [RegistryError] and changes nothing. *)
Theorem saved_dataset_is_kept (d d' : addr) (o o' : pyobj) (project : string)
    (s s1 : state) :
  objs (st_heap s) !! d = Some o ->
  apply_saved_dataset d project s = (Ok tt, s1) ->
  objs (st_heap s1) !! d' = Some o' ->
  name o' = name o ->
  delete_saved_dataset (name o) project s1 = (Ok tt, s1) /\
  get_saved_dataset (name o) project s1 = (Ok None, s1) /\
  apply_saved_dataset d' project s1 = (Raise RegistryError, s1).
Proof.
  intros Ho Happly Ho' Hname.
  split; [reflexivity|]. split; [reflexivity|].
  destruct (apply_in_stores _ _ _ _ _ Happly) as (o0 & Ho0 & _ & Hget).
  rewrite Ho in Ho0. injection Ho0 as <-.
  apply (apply_in_duplicate a_saved_datasets d' o'); [exact Ho'|].
  rewrite Hname. apply dict_mem_true. eauto.
Qed.

Lemma saved_dataset_is_kept_witness :
  let s1 := snd (apply_saved_dataset 0 "a" Scenario.sources_ready) in
  delete_saved_dataset "b:c" "a" s1 = (Ok tt, s1) /\
  get_saved_dataset "b:c" "a" s1 = (Ok None, s1) /\
  apply_saved_dataset 0 "a" s1 = (Raise RegistryError, s1).
Proof.
  apply (saved_dataset_is_kept 0 0 (Scenario.source_named "b:c")
           (Scenario.source_named "b:c") "a" Scenario.sources_ready);
    vm_compute; reflexivity.
Defined.
